(** * The object selection tool of the Tiled map editor

    A shallow embedding of [src/tiled/objectselectiontool.cpp]: the geometry
    helpers ([alignmentOffset], [align], [unalign], [rotateAt]), the gesture
    state machine of [ObjectSelectionTool] (drag dispatch, moving, rotating,
    resizing, finishing) and its reaction to objects being removed from the
    document.

    Numbers.  [qreal] (a C++ [double]) is embedded as an exact canonical
    rational [Qc]: rounding, infinities and NaN are outside the model, and a
    quotient by zero has the value [0] of [Qcanon] instead of an IEEE
    special value.  [int] is embedded as [Z]; screen coordinates stay far
    from the bounds of a 32-bit [int].  [operator==] of [QPointF] is exact
    equality.

    Pointers.  A [MapObjectItem*] is a key into the scene's item table; each
    item owns exactly one [MapObject], so the same key identifies the object.
    A read through a pointer that may be null, or of the first element of a
    list that may be empty, is a partial function ([option]).

    Collaborators whose code lives outside this file of the repository (the
    map renderer, the snap helper, libm, the frame of the selection over
    tile images) are interfaces, given as type classes.  [Q_ASSERT] does
    nothing in a release build and is left out, and so are the calls that
    only update the status bar ([AbstractObjectTool::mouseMoved]). *)

From Stdlib Require Import ZArith QArith Qcanon Qround Lqa.
From stdpp Require Import gmap list.

Local Open Scope Qc_scope.

(** ** Numbers *)

Abbreviation qreal := Qc (only parsing).

Definition real (q : Q) : qreal := Q2Qc q.

(** [qMax] and [qMin] as the Qt templates define them:
    [(a < b) ? b : a] and [(a < b) ? a : b]. *)
Definition qMax (a b : qreal) : qreal := if decide (a < b) then b else a.
Definition qMin (a b : qreal) : qreal := if decide (a < b) then a else b.

(** [std::floor], exact on rationals. *)
Definition floor (a : qreal) : qreal := real (inject_Z (Qfloor a)).

(** The macro of the source file, with the digits it is written with. *)
Definition M_PI : qreal := real 3.14159265358979323846.

(** ** Qt value types *)

Record QPointF := mkPointF { px : qreal; py : qreal }.
Record QSizeF := mkSizeF { wd : qreal; ht : qreal }.
Record QRectF := mkRectF { rx : qreal; ry : qreal; rw : qreal; rh : qreal }.
Record QPoint := mkPoint { ix : Z; iy : Z }.

Definition padd (a b : QPointF) : QPointF := mkPointF (px a + px b) (py a + py b).
Definition psub (a b : QPointF) : QPointF := mkPointF (px a - px b) (py a - py b).
Definition pneg (a : QPointF) : QPointF := mkPointF (- px a) (- py a).
Definition origin0 : QPointF := mkPointF 0 0.

Definition isub (a b : QPoint) : QPoint := mkPoint (ix a - ix b) (iy a - iy b).
Definition manhattanLength (p : QPoint) : Z := Z.abs (ix p) + Z.abs (iy p).

#[global] Instance QPointF_eq_dec : EqDecision QPointF.
Proof. solve_decision. Defined.
#[global] Instance QSizeF_eq_dec : EqDecision QSizeF.
Proof. solve_decision. Defined.
#[global] Instance QRectF_eq_dec : EqDecision QRectF.
Proof. solve_decision. Defined.

(** [QRectF(topLeft, size)], [QRectF(topLeft, bottomRight)] and the
    accessors and mutators the tool uses. *)
Definition rectOf (p : QPointF) (s : QSizeF) : QRectF := mkRectF (px p) (py p) (wd s) (ht s).
Definition rectBetween (a b : QPointF) : QRectF :=
  mkRectF (px a) (py a) (px b - px a) (py b - py a).
Definition topLeft (r : QRectF) : QPointF := mkPointF (rx r) (ry r).
Definition rectSize (r : QRectF) : QSizeF := mkSizeF (rw r) (rh r).
Definition translate (p : QPointF) (r : QRectF) : QRectF :=
  mkRectF (rx r + px p) (ry r + py p) (rw r) (rh r).
Definition setLeft (pos : qreal) (r : QRectF) : QRectF :=
  let diff := pos - rx r in mkRectF (rx r + diff) (ry r) (rw r - diff) (rh r).
Definition setRight (pos : qreal) (r : QRectF) : QRectF :=
  mkRectF (rx r) (ry r) (pos - rx r) (rh r).
Definition setTop (pos : qreal) (r : QRectF) : QRectF :=
  let diff := pos - ry r in mkRectF (rx r) (ry r + diff) (rw r) (rh r - diff).
Definition setBottom (pos : qreal) (r : QRectF) : QRectF :=
  mkRectF (rx r) (ry r) (rw r) (pos - ry r).
Definition normalized (r : QRectF) : QRectF :=
  let r1 := if decide (rw r < 0) then mkRectF (rx r + rw r) (ry r) (- rw r) (rh r) else r in
  if decide (rh r1 < 0) then mkRectF (rx r1) (ry r1 + rh r1) (rw r1) (- rh r1) else r1.

(** ** Alignment (lines 592-617) *)

Inductive Alignment :=
  | TopLeft | Top | TopRight
  | Left | Center | Right
  | BottomLeft | Bottom | BottomRight.

Definition alignmentOffset (r : QRectF) (alignment : Alignment) : QPointF :=
  match alignment with
  | TopLeft => origin0
  | Top => mkPointF (rw r / real 2) 0
  | TopRight => mkPointF (rw r) 0
  | Left => mkPointF 0 (rh r / real 2)
  | Center => mkPointF (rw r / real 2) (rh r / real 2)
  | Right => mkPointF (rw r) (rh r / real 2)
  | BottomLeft => mkPointF 0 (rh r)
  | Bottom => mkPointF (rw r / real 2) (rh r)
  | BottomRight => mkPointF (rw r) (rh r)
  end.

Definition align (r : QRectF) (alignment : Alignment) : QRectF :=
  translate (pneg (alignmentOffset r alignment)) r.

Definition unalign (r : QRectF) (alignment : Alignment) : QRectF :=
  translate (alignmentOffset r alignment) r.


(** ** QTransform

    Modelled from the spec: [QTransform] is Qt's; an affine map with the
    coefficients [m11 m12 m21 m22 dx dy], applied to row vectors, where
    [translate] and [rotate] compose in front of the map built so far.  The
    sine and cosine of the rotation come from the [Libm] interface below. *)

Record QTransform := mkTransform {
  m11 : qreal; m12 : qreal; m21 : qreal; m22 : qreal; dx : qreal; dy : qreal }.

Definition identityTransform : QTransform := mkTransform 1 0 0 1 0 0.

Definition tTranslate (tx ty : qreal) (t : QTransform) : QTransform :=
  mkTransform (m11 t) (m12 t) (m21 t) (m22 t)
              (dx t + tx * m11 t + ty * m21 t) (dy t + ty * m22 t + tx * m12 t).

Definition tMap (t : QTransform) (p : QPointF) : QPointF :=
  mkPointF (m11 t * px p + m21 t * py p + dx t) (m12 t * px p + m22 t * py p + dy t).

(** ** Interfaces of the collaborators *)

(** [std::sin], [std::cos], [std::atan2] of [<cmath>]. *)
Class Libm := {
  std_sin : qreal -> qreal;
  std_cos : qreal -> qreal;
  std_atan2 : qreal -> qreal -> qreal }.

(** [MapRenderer]: the two coordinate conversions the tool calls. *)
Class MapRenderer := {
  pixelToScreenCoords : QPointF -> QPointF;
  screenToPixelCoords : QPointF -> QPointF }.

(** Keyboard modifiers, the bits of [Qt::KeyboardModifier]. *)
Definition ShiftModifier : Z := 0x02000000.
Definition ControlModifier : Z := 0x04000000.
Definition AltModifier : Z := 0x08000000.
Definition testFlag (modifiers flag : Z) : bool := negb (Z.land modifiers flag =? 0)%Z.

(** [SnapHelper]: built from the renderer and the modifiers (none by
    default), it can be toggled, asked whether it snaps, and snaps a pixel
    position. *)
Class SnapHelperApi := {
  SnapHelper : Type;
  newSnapHelper : Z -> SnapHelper;
  toggleSnap : SnapHelper -> SnapHelper;
  snaps : SnapHelper -> bool;
  snap : SnapHelper -> QPointF -> QPointF }.

Section Rotation.
Context `{Libm}.

(** [QTransform::rotate] about the Z axis, angle in degrees. *)
Definition tRotate (a : qreal) (t : QTransform) : QTransform :=
  if decide (a = 0) then t else
  let '(sina, cosa) :=
    if decide (a = real 90 \/ a = real (-270)) then (1, 0)
    else if decide (a = real 270 \/ a = real (-90)) then (- (1), 0)
    else if decide (a = real 180) then (0, - (1))
    else let b := M_PI / real 180 * a in (std_sin b, std_cos b) in
  mkTransform (cosa * m11 t + sina * m21 t) (cosa * m12 t + sina * m22 t)
              (- sina * m11 t + cosa * m21 t) (- sina * m12 t + cosa * m22 t)
              (dx t) (dy t).

(** Lines 700-707. *)
Definition rotateAt (position : QPointF) (rotation : qreal) : QTransform :=
  tTranslate (- px position) (- py position)
    (tRotate rotation
      (tTranslate (px position) (py position) identityTransform)).
End Rotation.

(** ** Map objects and their scene items *)

Inductive AnchorPosition :=
  | TopLeftAnchor | TopRightAnchor | BottomLeftAnchor | BottomRightAnchor
  | TopAnchor | LeftAnchor | RightAnchor | BottomAnchor.

#[global] Instance AnchorPosition_eq_dec : EqDecision AnchorPosition.
Proof. solve_decision. Defined.

Inductive DrawOrder := UnknownOrder | TopDownOrder | IndexOrder.

#[global] Instance DrawOrder_eq_dec : EqDecision DrawOrder.
Proof. solve_decision. Defined.

Module MapObject.
Inductive Shape := Rectangle | Polygon | Polyline | Ellipse.

#[global] Instance Shape_eq_dec : EqDecision Shape.
Proof. solve_decision. Defined.

(** [cellIsEmpty] is [cell().isEmpty()]; [drawOrder] is the draw order of
    the object's [objectGroup()]. *)
Record t := mk {
  position : QPointF;
  size : QSizeF;
  shape : Shape;
  polygon : list QPointF;
  rotation : qreal;
  alignment : Alignment;
  cellIsEmpty : bool;
  drawOrder : DrawOrder }.

Definition setPosition (p : QPointF) (o : t) : t :=
  mk p (size o) (shape o) (polygon o) (rotation o) (alignment o) (cellIsEmpty o) (drawOrder o).
Definition setSize (s : QSizeF) (o : t) : t :=
  mk (position o) s (shape o) (polygon o) (rotation o) (alignment o) (cellIsEmpty o) (drawOrder o).
Definition setPolygon (pg : list QPointF) (o : t) : t :=
  mk (position o) (size o) (shape o) pg (rotation o) (alignment o) (cellIsEmpty o) (drawOrder o).
Definition setRotation (a : qreal) (o : t) : t :=
  mk (position o) (size o) (shape o) (polygon o) a (alignment o) (cellIsEmpty o) (drawOrder o).
End MapObject.

(** Modelled from the spec: [MapObjectItem] is declared in [mapobjectitem.h],
    which is not under src.  An item has the [QGraphicsItem] position,
    rotation and stacking value and owns its map object;
    [setObjectRotation] sets the rotation of the object and of the item,
    [resizeObject] sets the size of the object. *)
Module MapObjectItem.
Record t := mk {
  pos : QPointF;
  rotation : qreal;
  zValue : qreal;
  mapObject : MapObject.t }.

Definition setPos (p : QPointF) (i : t) : t := mk p (rotation i) (zValue i) (mapObject i).
Definition setZValue (z : qreal) (i : t) : t := mk (pos i) (rotation i) z (mapObject i).
Definition onObject (f : MapObject.t -> MapObject.t) (i : t) : t :=
  mk (pos i) (rotation i) (zValue i) (f (mapObject i)).
Definition setObjectRotation (a : qreal) (i : t) : t :=
  mk (pos i) a (zValue i) (MapObject.setRotation a (mapObject i)).
Definition resizeObject (s : QSizeF) (i : t) : t := onObject (MapObject.setSize s) i.
End MapObjectItem.

(** The [MovingObject] struct: the state of one selected object when the
    gesture started. *)
Record MovingObject := mkMovingObject {
  item : nat;
  oldItemPosition : QPointF;
  oldPosition : QPointF;
  oldSize : QSizeF;
  oldPolygon : list QPointF;
  oldRotation : qreal }.

#[global] Instance MovingObject_eq_dec : EqDecision MovingObject.
Proof. solve_decision. Defined.

(** ** Handles *)

(** The axis locks a [ResizeHandle] gets in its constructor (lines 264-274). *)
Definition resizingLimitHorizontal (a : AnchorPosition) : bool :=
  match a with TopAnchor | BottomAnchor => true | _ => false end.
Definition resizingLimitVertical (a : AnchorPosition) : bool :=
  match a with LeftAnchor | RightAnchor => true | _ => false end.

Record ResizeHandle := mkResizeHandle {
  handlePos : QPointF;
  resizingOrigin : QPointF }.

Record Handles := mkHandles {
  mOriginIndicator : QPointF;
  originVisible : bool;
  mRotateHandles : AnchorPosition -> QPointF;
  rotateHandlesVisible : bool;
  mResizeHandles : AnchorPosition -> ResizeHandle;
  resizeHandlesVisible : bool;
  handleRotation : qreal }.

(** ** The scene, the undo stack and the tool *)

Record Scene := mkScene {
  items : gmap nat MapObjectItem.t;
  selectedObjectItems : gset nat;
  selectionRectangle : QRectF;
  selectionRectangleShown : bool }.

(** Modelled from the spec: the undo commands are declared in headers that
    are not under src.  Each one carries the object and the value to put
    back, and undoing it writes that value; a macro is undone as a whole,
    last command first. *)
Inductive UndoCommand :=
  | MoveMapObject (object : nat) (oldPos : QPointF)
  | RotateMapObject (object : nat) (oldRotation : qreal)
  | ResizeMapObject (object : nat) (oldSize : QSizeF)
  | ChangePolygon (object : nat) (oldPolygon : list QPointF).



Inductive Action := NoAction | Selecting | Moving | Rotating | Resizing.
Inductive Mode := Resize | Rotate.

#[global] Instance Action_eq_dec : EqDecision Action.
Proof. solve_decision. Defined.
#[global] Instance Mode_eq_dec : EqDecision Mode.
Proof. solve_decision. Defined.

(** The members of [ObjectSelectionTool], with the scene and the undo stack
    of the document it works on. *)
Record Tool := mkTool {
  mMousePressed : bool;
  mClickedObjectItem : option nat;
  mClickedRotateHandle : option AnchorPosition;
  mClickedResizeHandle : option AnchorPosition;
  mResizingLimitHorizontal : bool;
  mResizingLimitVertical : bool;
  mMode : Mode;
  mAction : Action;
  mStart : QPointF;
  mScreenStart : QPoint;
  mOrigin : QPointF;
  mAlignPosition : QPointF;
  mMovingObjects : list MovingObject;
  handles : Handles;
  scene : Scene;
  undoStack : list (list UndoCommand) }.

(** Assignments to one member. *)
Definition set_mResizingLimitHorizontal (v : bool) (t : Tool) : Tool :=
  mkTool (mMousePressed t) (mClickedObjectItem t) (mClickedRotateHandle t)
    (mClickedResizeHandle t) v (mResizingLimitVertical t) (mMode t) (mAction t) (mStart
    t) (mScreenStart t) (mOrigin t) (mAlignPosition t) (mMovingObjects t) (handles t)
    (scene t) (undoStack t).
Definition set_mResizingLimitVertical (v : bool) (t : Tool) : Tool :=
  mkTool (mMousePressed t) (mClickedObjectItem t) (mClickedRotateHandle t)
    (mClickedResizeHandle t) (mResizingLimitHorizontal t) v (mMode t) (mAction t)
    (mStart t) (mScreenStart t) (mOrigin t) (mAlignPosition t) (mMovingObjects t)
    (handles t) (scene t) (undoStack t).
Definition set_mMode (v : Mode) (t : Tool) : Tool :=
  mkTool (mMousePressed t) (mClickedObjectItem t) (mClickedRotateHandle t)
    (mClickedResizeHandle t) (mResizingLimitHorizontal t) (mResizingLimitVertical t) v
    (mAction t) (mStart t) (mScreenStart t) (mOrigin t) (mAlignPosition t)
    (mMovingObjects t) (handles t) (scene t) (undoStack t).
Definition set_mAction (v : Action) (t : Tool) : Tool :=
  mkTool (mMousePressed t) (mClickedObjectItem t) (mClickedRotateHandle t)
    (mClickedResizeHandle t) (mResizingLimitHorizontal t) (mResizingLimitVertical t)
    (mMode t) v (mStart t) (mScreenStart t) (mOrigin t) (mAlignPosition t)
    (mMovingObjects t) (handles t) (scene t) (undoStack t).
Definition set_mStart (v : QPointF) (t : Tool) : Tool :=
  mkTool (mMousePressed t) (mClickedObjectItem t) (mClickedRotateHandle t)
    (mClickedResizeHandle t) (mResizingLimitHorizontal t) (mResizingLimitVertical t)
    (mMode t) (mAction t) v (mScreenStart t) (mOrigin t) (mAlignPosition t)
    (mMovingObjects t) (handles t) (scene t) (undoStack t).
Definition set_mOrigin (v : QPointF) (t : Tool) : Tool :=
  mkTool (mMousePressed t) (mClickedObjectItem t) (mClickedRotateHandle t)
    (mClickedResizeHandle t) (mResizingLimitHorizontal t) (mResizingLimitVertical t)
    (mMode t) (mAction t) (mStart t) (mScreenStart t) v (mAlignPosition t)
    (mMovingObjects t) (handles t) (scene t) (undoStack t).
Definition set_mAlignPosition (v : QPointF) (t : Tool) : Tool :=
  mkTool (mMousePressed t) (mClickedObjectItem t) (mClickedRotateHandle t)
    (mClickedResizeHandle t) (mResizingLimitHorizontal t) (mResizingLimitVertical t)
    (mMode t) (mAction t) (mStart t) (mScreenStart t) (mOrigin t) v (mMovingObjects t)
    (handles t) (scene t) (undoStack t).
Definition set_mMovingObjects (v : list MovingObject) (t : Tool) : Tool :=
  mkTool (mMousePressed t) (mClickedObjectItem t) (mClickedRotateHandle t)
    (mClickedResizeHandle t) (mResizingLimitHorizontal t) (mResizingLimitVertical t)
    (mMode t) (mAction t) (mStart t) (mScreenStart t) (mOrigin t) (mAlignPosition t) v
    (handles t) (scene t) (undoStack t).
Definition set_handles (v : Handles) (t : Tool) : Tool :=
  mkTool (mMousePressed t) (mClickedObjectItem t) (mClickedRotateHandle t)
    (mClickedResizeHandle t) (mResizingLimitHorizontal t) (mResizingLimitVertical t)
    (mMode t) (mAction t) (mStart t) (mScreenStart t) (mOrigin t) (mAlignPosition t)
    (mMovingObjects t) v (scene t) (undoStack t).
Definition set_scene (v : Scene) (t : Tool) : Tool :=
  mkTool (mMousePressed t) (mClickedObjectItem t) (mClickedRotateHandle t)
    (mClickedResizeHandle t) (mResizingLimitHorizontal t) (mResizingLimitVertical t)
    (mMode t) (mAction t) (mStart t) (mScreenStart t) (mOrigin t) (mAlignPosition t)
    (mMovingObjects t) (handles t) v (undoStack t).
Definition set_undoStack (v : list (list UndoCommand)) (t : Tool) : Tool :=
  mkTool (mMousePressed t) (mClickedObjectItem t) (mClickedRotateHandle t)
    (mClickedResizeHandle t) (mResizingLimitHorizontal t) (mResizingLimitVertical t)
    (mMode t) (mAction t) (mStart t) (mScreenStart t) (mOrigin t) (mAlignPosition t)
    (mMovingObjects t) (handles t) (scene t) v.

Definition setItems (m : gmap nat MapObjectItem.t) (s : Scene) : Scene :=
  mkScene m (selectedObjectItems s) (selectionRectangle s) (selectionRectangleShown s).
Definition setSelected (sel : gset nat) (s : Scene) : Scene :=
  mkScene (items s) sel (selectionRectangle s) (selectionRectangleShown s).
Definition setRectangle (r : QRectF) (s : Scene) : Scene :=
  mkScene (items s) (selectedObjectItems s) r (selectionRectangleShown s).
Definition showRectangle (b : bool) (s : Scene) : Scene :=
  mkScene (items s) (selectedObjectItems s) (selectionRectangle s) b.

Definition setOriginPos (p : QPointF) (h : Handles) : Handles :=
  mkHandles p (originVisible h) (mRotateHandles h) (rotateHandlesVisible h)
            (mResizeHandles h) (resizeHandlesVisible h) (handleRotation h).

(** The frame of the selection that [updateHandles] computes before it
    places the handles: four corners, the centre and the rotation of the
    handles. *)
Record Frame := mkFrame {
  frameTopLeft : QPointF;
  frameTopRight : QPointF;
  frameBottomLeft : QPointF;
  frameBottomRight : QPointF;
  frameCenter : QPointF;
  frameRotation : qreal }.

(** What is outside the tool: the drag threshold of the platform
    ([QApplication::startDragDistance]) and the frame of the selection, the
    part of [updateHandles] (lines 727-774) that goes through
    [objectBounds], tile images and [QTransform::mapRect]. *)
Class Platform := {
  startDragDistance : Z;
  selectionFrame : Scene -> Frame }.

Definition midpoint (a b : QPointF) : QPointF :=
  mkPointF ((px a + px b) / real 2) ((py a + py b) / real 2).

(** Lines 776-809: every handle is put on its point of the frame, and every
    resize handle records the opposite point as its resizing origin. *)
Definition placeHandles (f : Frame) (h : Handles) : Handles :=
  let top := midpoint (frameTopLeft f) (frameTopRight f) in
  let left := midpoint (frameTopLeft f) (frameBottomLeft f) in
  let right := midpoint (frameTopRight f) (frameBottomRight f) in
  let bottom := midpoint (frameBottomLeft f) (frameBottomRight f) in
  mkHandles
    (frameCenter f) (originVisible h)
    (fun a => match a with
              | TopLeftAnchor => frameTopLeft f
              | TopRightAnchor => frameTopRight f
              | BottomLeftAnchor => frameBottomLeft f
              | BottomRightAnchor => frameBottomRight f
              | other => mRotateHandles h other
              end)
    (rotateHandlesVisible h)
    (fun a => match a with
              | TopAnchor => mkResizeHandle top bottom
              | LeftAnchor => mkResizeHandle left right
              | RightAnchor => mkResizeHandle right left
              | BottomAnchor => mkResizeHandle bottom top
              | TopLeftAnchor => mkResizeHandle (frameTopLeft f) (frameBottomRight f)
              | TopRightAnchor => mkResizeHandle (frameTopRight f) (frameBottomLeft f)
              | BottomLeftAnchor => mkResizeHandle (frameBottomLeft f) (frameTopRight f)
              | BottomRightAnchor => mkResizeHandle (frameBottomRight f) (frameTopLeft f)
              end)
    (resizeHandlesVisible h)
    (frameRotation f).

(** A [foreach] over the snapshot list that changes the item of each
    snapshot in place. *)
Definition forEachItem (f : MovingObject -> MapObjectItem.t -> MapObjectItem.t)
    (l : list MovingObject) (m : gmap nat MapObjectItem.t) : gmap nat MapObjectItem.t :=
  foldl (fun acc o => alter (f o) (item o) acc) m l.

Definition resizeInPixelSpace (object : MapObject.t) : bool := MapObject.cellIsEmpty object.

Section ObjectSelectionTool.
Context `{Libm} `{MapRenderer} `{SnapHelperApi} `{Platform}.

(** *** Handles (lines 718-828) *)

Definition updateHandleVisibility (t : Tool) : Tool :=
  let h := handles t in
  let hasSelection := negb (bool_decide (selectedObjectItems (scene t) = ∅)) in
  let showHandles := hasSelection &&
    (bool_decide (mAction t = NoAction) || bool_decide (mAction t = Selecting)) in
  let showOrigin := hasSelection && negb (bool_decide (mAction t = Moving)) &&
    (bool_decide (mMode t = Rotate) || bool_decide (mAction t = Resizing)) in
  set_handles
    (mkHandles (mOriginIndicator h) showOrigin
               (mRotateHandles h) (showHandles && bool_decide (mMode t = Rotate))
               (mResizeHandles h) (showHandles && bool_decide (mMode t = Resize))
               (handleRotation h)) t.

Definition updateHandles (t : Tool) : Tool :=
  if decide (mAction t = Moving \/ mAction t = Rotating \/ mAction t = Resizing) then t
  else
    let showHandles := negb (bool_decide (selectedObjectItems (scene t) = ∅)) in
    let t1 := if showHandles
              then set_handles (placeHandles (selectionFrame (scene t)) (handles t)) t
              else t in
    updateHandleVisibility t1.

(** [MapScene::setSelectedObjectItems] signals the change of selection, and
    [updateHandles] is connected to that signal (line 357). *)
Definition setSelectedObjectItems (sel : gset nat) (t : Tool) : Tool :=
  updateHandles (set_scene (setSelected sel (scene t)) t).

(** Lines 1261-1267. *)
Definition setMode (mode : Mode) (t : Tool) : Tool :=
  if decide (mMode t <> mode) then updateHandles (set_mMode mode t) else t.

(** *** Removal of objects during a gesture (lines 830-850) *)

Definition restoreObject (action : Action) (objects : list nat)
    (object : MovingObject) (it : MapObjectItem.t) : MapObjectItem.t :=
  if decide (item object ∈ objects) then it
  else
    let it1 := MapObjectItem.onObject (MapObject.setPosition (oldPosition object)) it in
    let it2 := MapObjectItem.setPos (oldItemPosition object) it1 in
    if decide (action = Rotating)
    then MapObjectItem.setObjectRotation (oldRotation object) it2
    else it2.

Definition objectsRemoved (objects : list nat) (t : Tool) : Tool :=
  if decide (mAction t <> Moving /\ mAction t <> Rotating) then t
  else
    let m := forEachItem (restoreObject (mAction t) objects)
                         (mMovingObjects t) (items (scene t)) in
    set_mMovingObjects [] (set_scene (setItems m (scene t)) t).

(** *** The snapshot (lines 1269-1286) *)

Definition snapshotOf (i : nat) (it : MapObjectItem.t) : MovingObject :=
  let mapObject := MapObjectItem.mapObject it in
  mkMovingObject i (MapObjectItem.pos it) (MapObject.position mapObject)
                 (MapObject.size mapObject) (MapObject.polygon mapObject)
                 (MapObject.rotation mapObject).

(** The selection is a [QSet]: [elements] is the order its iteration
    happens to have. *)
Definition saveSelectionState (t : Tool) : Tool :=
  set_mMovingObjects
    (omap (fun i => snapshotOf i <$> items (scene t) !! i)
          (elements (selectedObjectItems (scene t)))) t.

(** *** Selecting and moving (lines 877-946, 1288-1305) *)

Definition startSelecting (t : Tool) : Tool :=
  set_scene (showRectangle true (scene t)) (set_mAction Selecting t).

Definition minCorner (a : QPointF) (object : MovingObject) : QPointF :=
  let pos := oldPosition object in
  let a1 := if decide (px pos < px a) then mkPointF (px pos) (py a) else a in
  if decide (py pos < py a1) then mkPointF (px a1) (py pos) else a1.

(** [mMovingObjects.first()] has no value on an empty list: the function
    has no result then. *)
Definition startMoving (modifiers : Z) (t : Tool) : option Tool :=
  let t1 :=
    match mClickedObjectItem t with
    | Some clicked =>
        if negb (testFlag modifiers AltModifier)
        then if decide (clicked ∈ selectedObjectItems (scene t)) then t
             else setSelectedObjectItems {[ clicked ]} t
        else t
    | None => t
    end in
  let t2 := saveSelectionState t1 in
  let t3 := set_mAction Moving t2 in
  first ← head (mMovingObjects t3);
  let alignPosition := foldl minCorner (oldPosition first) (mMovingObjects t3) in
  Some (updateHandleVisibility (set_mAlignPosition alignPosition t3)).

Definition snapToGrid (diff : QPointF) (modifiers : Z) (t : Tool) : QPointF :=
  let snapHelper := newSnapHelper modifiers in
  if snaps snapHelper then
    let alignScreenPos := pixelToScreenCoords (mAlignPosition t) in
    let newAlignScreenPos := padd alignScreenPos diff in
    let newAlignPixelPos := snap snapHelper (screenToPixelCoords newAlignScreenPos) in
    psub (pixelToScreenCoords newAlignPixelPos) alignScreenPos
  else diff.

Definition moveObject (diff : QPointF) (object : MovingObject) (it : MapObjectItem.t)
  : MapObjectItem.t :=
  let newPixelPos := padd (oldItemPosition object) diff in
  let newPos := screenToPixelCoords newPixelPos in
  let it1 := MapObjectItem.setPos newPixelPos it in
  let it2 := MapObjectItem.onObject (MapObject.setPosition newPos) it1 in
  if decide (MapObject.drawOrder (MapObjectItem.mapObject it2) = TopDownOrder)
  then MapObjectItem.setZValue (py newPixelPos) it2
  else it2.

Definition updateMovingItems (pos : QPointF) (modifiers : Z) (t : Tool) : Tool :=
  let diff := snapToGrid (psub pos (mStart t)) modifiers t in
  set_scene (setItems (forEachItem (moveObject diff) (mMovingObjects t) (items (scene t)))
                      (scene t)) t.

(** [QUndoStack::beginMacro] ... [endMacro]: one macro on top of the stack. *)
Definition pushMacro (macro : list UndoCommand) (t : Tool) : Tool :=
  set_undoStack (macro :: undoStack t) t.

Definition finishMoving (pos : QPointF) (t : Tool) : Tool :=
  let t1 := updateHandles (set_mAction NoAction t) in
  if decide (mStart t1 = pos) then t1
  else
    let macro := map (fun object => MoveMapObject (item object) (oldPosition object))
                     (mMovingObjects t1) in
    set_mMovingObjects [] (pushMacro macro t1).

(** *** Rotating (lines 948-1009) *)

Definition startRotating (t : Tool) : Tool :=
  let t1 := set_mAction Rotating t in
  let t2 := set_mOrigin (mOriginIndicator (handles t1)) t1 in
  updateHandleVisibility (saveSelectionState t2).

(** 15 degrees in radians. *)
Definition snapAngle : qreal := real 15 * M_PI / real 180.

(** The angle between press and pointer as seen from the origin, in
    radians, snapped when Control is held. *)
Definition rotationAngle (pos : QPointF) (modifiers : Z) (t : Tool) : qreal :=
  let startDiff := psub (mOrigin t) (mStart t) in
  let currentDiff := psub (mOrigin t) pos in
  let startAngle := std_atan2 (py startDiff) (px startDiff) in
  let currentAngle := std_atan2 (py currentDiff) (px currentDiff) in
  let angleDiff := currentAngle - startAngle in
  if testFlag modifiers ControlModifier
  then floor ((angleDiff + snapAngle / real 2) / snapAngle) * snapAngle
  else angleDiff.

Definition rotateObject (origin : QPointF) (angleDiff : qreal)
    (object : MovingObject) (it : MapObjectItem.t) : MapObjectItem.t :=
  let oldRelPos := psub (oldItemPosition object) origin in
  let sn := std_sin angleDiff in
  let cs := std_cos angleDiff in
  let newRelPos := mkPointF (px oldRelPos * cs - py oldRelPos * sn)
                            (px oldRelPos * sn + py oldRelPos * cs) in
  let newPixelPos := padd origin newRelPos in
  let newPos := screenToPixelCoords newPixelPos in
  let newRotation := oldRotation object + angleDiff * real 180 / M_PI in
  let it1 := MapObjectItem.setPos newPixelPos it in
  let it2 := MapObjectItem.onObject (MapObject.setPosition newPos) it1 in
  MapObjectItem.setObjectRotation newRotation it2.

Definition updateRotatingItems (pos : QPointF) (modifiers : Z) (t : Tool) : Tool :=
  let angleDiff := rotationAngle pos modifiers t in
  set_scene (setItems (forEachItem (rotateObject (mOrigin t) angleDiff)
                                   (mMovingObjects t) (items (scene t)))
                      (scene t)) t.

Definition finishRotating (pos : QPointF) (t : Tool) : Tool :=
  let t1 := updateHandles (set_mAction NoAction t) in
  if decide (mStart t1 = pos) then t1
  else
    let macro := flat_map (fun object =>
                   [MoveMapObject (item object) (oldPosition object);
                    RotateMapObject (item object) (oldRotation object)])
                   (mMovingObjects t1) in
    set_mMovingObjects [] (pushMacro macro t1).

(** *** Resizing (lines 1012-1259) *)

(** The clicked handle is a pointer member: without a clicked handle the
    functions that go through it have no result. *)
Definition startResizing (t : Tool) : option Tool :=
  anchor ← mClickedResizeHandle t;
  let t1 := set_mAction Resizing t in
  let t2 := set_mOrigin (mOriginIndicator (handles t1)) t1 in
  let t3 := set_mResizingLimitHorizontal (resizingLimitHorizontal anchor) t2 in
  let t4 := set_mResizingLimitVertical (resizingLimitVertical anchor) t3 in
  let t5 := set_mStart (handlePos (mResizeHandles (handles t4) anchor)) t4 in
  Some (updateHandleVisibility (saveSelectionState t5)).

(** The one factor of a resize of several objects (lines 1063-1071). *)
Definition resizeScale (limitHorizontal limitVertical : bool)
    (diff startDiff : QPointF) : qreal :=
  if limitHorizontal then qMax (real 0.01) (py diff / py startDiff)
  else if limitVertical then qMax (real 0.01) (px diff / px startDiff)
  else qMin (qMax (real 0.01) (px diff / px startDiff))
            (qMax (real 0.01) (py diff / py startDiff)).

Definition scalePolygonPoint (sn cs scale : qreal) (oldPoint : QPointF) : QPointF :=
  let rotPoint := mkPointF (px oldPoint * cs + py oldPoint * sn)
                           (py oldPoint * cs - px oldPoint * sn) in
  let scaledPoint := mkPointF (px rotPoint * scale) (py rotPoint * scale) in
  mkPointF (px scaledPoint * cs - py scaledPoint * sn)
           (py scaledPoint * cs + px scaledPoint * sn).

Definition resizeObjectBy (resizingOrigin : QPointF) (scale : qreal)
    (object : MovingObject) (it : MapObjectItem.t) : MapObjectItem.t :=
  let oldRelPos := psub (oldItemPosition object) resizingOrigin in
  let scaledRelPos := mkPointF (px oldRelPos * scale) (py oldRelPos * scale) in
  let newScreenPos := padd resizingOrigin scaledRelPos in
  let newPos := screenToPixelCoords newScreenPos in
  let origSize := oldSize object in
  let newSize := mkSizeF (wd origSize * scale) (ht origSize * scale) in
  let it1 :=
    match MapObject.polygon (MapObjectItem.mapObject it) with
    | [] => it
    | _ :: _ =>
        let rotation := MapObjectItem.rotation it * M_PI / real (-180) in
        let sn := std_sin rotation in
        let cs := std_cos rotation in
        let newPolygon := map (scalePolygonPoint sn cs scale) (oldPolygon object) in
        MapObjectItem.onObject (MapObject.setPolygon newPolygon) it
    end in
  let it2 := MapObjectItem.resizeObject newSize it1 in
  let it3 := MapObjectItem.setPos newScreenPos it2 in
  MapObjectItem.onObject (MapObject.setPosition newPos) it3.

(** The bounds of a rectangle or an ellipse whose handle [anchor] is
    dragged to [pos], the opposite point [origin] staying where it is
    (lines 1157-1191). *)
Definition clampBounds (anchor : AnchorPosition) (alignment : Alignment)
    (pos origin newPos : QPointF) (newSize : QSizeF) : QRectF :=
  let newBounds := align (rectOf newPos newSize) alignment in
  let newBounds1 :=
    match anchor with
    | LeftAnchor | TopLeftAnchor | BottomLeftAnchor =>
        setLeft (qMin (px pos) (px origin)) newBounds
    | RightAnchor | TopRightAnchor | BottomRightAnchor =>
        setRight (qMax (px pos) (px origin)) newBounds
    | _ => newBounds
    end in
  let newBounds2 :=
    match anchor with
    | TopAnchor | TopLeftAnchor | TopRightAnchor =>
        setTop (qMin (py pos) (py origin)) newBounds1
    | BottomAnchor | BottomLeftAnchor | BottomRightAnchor =>
        setBottom (qMax (py pos) (py origin)) newBounds1
    | _ => newBounds1
    end in
  unalign newBounds2 alignment.

(** The two factors of a resize of one object (lines 1196-1207). *)
Definition scalingFactorOf (limitHorizontal limitVertical preserveAspect : bool)
    (relPos startDiff : QPointF) : QSizeF :=
  let scalingFactor := mkSizeF (qMax (real 0.01) (px relPos / px startDiff))
                               (qMax (real 0.01) (py relPos / py startDiff)) in
  if limitHorizontal
  then mkSizeF (if preserveAspect then ht scalingFactor else 1) (ht scalingFactor)
  else if limitVertical
  then mkSizeF (wd scalingFactor) (if preserveAspect then wd scalingFactor else 1)
  else if preserveAspect
  then let scale := qMin (wd scalingFactor) (ht scalingFactor) in mkSizeF scale scale
  else scalingFactor.

Definition updateResizingSingleItem (resizingOrigin0 screenPos : QPointF)
    (modifiers : Z) (t : Tool) : option Tool :=
  object ← head (mMovingObjects t);
  it ← items (scene t) !! item object;
  anchor ← mClickedResizeHandle t;
  let mapObject := MapObjectItem.mapObject it in
  let unrotate := rotateAt (oldItemPosition object) (- oldRotation object) in
  let rotate := rotateAt (oldItemPosition object) (oldRotation object) in
  let pixelSpace := resizeInPixelSpace mapObject in
  let preserveAspect := testFlag modifiers ControlModifier in
  let toSpace p := if pixelSpace then screenToPixelCoords p else p in
  let origin := toSpace (tMap unrotate resizingOrigin0) in
  let pos := toSpace (tMap unrotate screenPos) in
  let start := toSpace (tMap unrotate (mStart t)) in
  let oldPos := if pixelSpace then oldPosition object else oldItemPosition object in
  let '(newPos, newSize, newPolygon) :=
    if bool_decide (resizingOrigin (mResizeHandles (handles t) anchor) = resizingOrigin0)
       && (bool_decide (MapObject.shape mapObject = MapObject.Rectangle)
           || bool_decide (MapObject.shape mapObject = MapObject.Ellipse))
       && negb preserveAspect
    then
      let newBounds := clampBounds anchor (MapObject.alignment mapObject)
                                   pos origin oldPos (oldSize object) in
      (topLeft newBounds, rectSize newBounds, None)
    else
      let relPos := psub pos origin in
      let startDiff := psub start origin in
      let scalingFactor := scalingFactorOf (mResizingLimitHorizontal t)
                             (mResizingLimitVertical t) preserveAspect relPos startDiff in
      let oldRelPos := psub oldPos origin in
      (padd origin (mkPointF (px oldRelPos * wd scalingFactor)
                             (py oldRelPos * ht scalingFactor)),
       mkSizeF (wd (oldSize object) * wd scalingFactor)
               (ht (oldSize object) * ht scalingFactor),
       match oldPolygon object with
       | [] => None
       | _ :: _ => Some (map (fun point => mkPointF (px point * wd scalingFactor)
                                                    (py point * ht scalingFactor))
                             (oldPolygon object))
       end) in
  let newPos1 := if pixelSpace then pixelToScreenCoords newPos else newPos in
  let newPos2 := screenToPixelCoords (tMap rotate newPos1) in
  let it1 := match newPolygon with
             | Some pg => MapObjectItem.onObject (MapObject.setPolygon pg) it
             | None => it
             end in
  let it2 := MapObjectItem.resizeObject newSize it1 in
  let it3 := MapObjectItem.setPos (pixelToScreenCoords newPos2) it2 in
  let it4 := MapObjectItem.onObject (MapObject.setPosition newPos2) it3 in
  Some (set_scene (setItems (<[item object := it4]> (items (scene t))) (scene t)) t).

(** The origin of a Resizing update: the opposite point the clicked handle
    recorded, or the gesture's origin when Shift is held (lines 1031-1033). *)
Definition activeOrigin (modifiers : Z) (anchor : AnchorPosition) (t : Tool) : QPointF :=
  if testFlag modifiers ShiftModifier then mOrigin t
  else resizingOrigin (mResizeHandles (handles t) anchor).

(** The pointer after snapping, back in screen coordinates (lines
    1040-1045). *)
Definition snappedScreenPos (pos : QPointF) (modifiers : Z) : QPointF :=
  let snapHelper0 := newSnapHelper 0 in
  let snapHelper := if testFlag modifiers AltModifier then toggleSnap snapHelper0
                    else snapHelper0 in
  let pixelPos := snap snapHelper (screenToPixelCoords pos) in
  pixelToScreenCoords pixelPos.

Definition updateResizingItems (pos : QPointF) (modifiers : Z) (t : Tool) : option Tool :=
  anchor ← mClickedResizeHandle t;
  let resizingOrigin0 := activeOrigin modifiers anchor t in
  let t1 := set_handles (setOriginPos resizingOrigin0 (handles t)) t in
  let diff := psub (snappedScreenPos pos modifiers) resizingOrigin0 in
  let startDiff := psub (mStart t1) resizingOrigin0 in
  if decide (length (mMovingObjects t1) = 1%nat)
  then updateResizingSingleItem resizingOrigin0 (snappedScreenPos pos modifiers) modifiers t1
  else
    let scale := resizeScale (mResizingLimitHorizontal t1) (mResizingLimitVertical t1)
                             diff startDiff in
    Some (set_scene (setItems (forEachItem (resizeObjectBy resizingOrigin0 scale)
                                           (mMovingObjects t1) (items (scene t1)))
                              (scene t1)) t1).

Definition resizeCommands (object : MovingObject) : list UndoCommand :=
  [MoveMapObject (item object) (oldPosition object);
   ResizeMapObject (item object) (oldSize object)]
  ++ match oldPolygon object with
     | [] => []
     | _ :: _ => [ChangePolygon (item object) (oldPolygon object)]
     end.

Definition finishResizing (pos : QPointF) (t : Tool) : Tool :=
  let t1 := updateHandles (set_mAction NoAction t) in
  if decide (mStart t1 = pos) then t1
  else set_mMovingObjects [] (pushMacro (flat_map resizeCommands (mMovingObjects t1)) t1).

(** *** Pointer movement (lines 443-482) *)

(** [screenPos] is what [QCursor::pos()] returns during the call. *)
Definition mouseMoved (pos : QPointF) (modifiers : Z) (screenPos : QPoint) (t : Tool)
  : option Tool :=
  t1 ← (if bool_decide (mAction t = NoAction) && mMousePressed t then
          let dragDistance := manhattanLength (isub (mScreenStart t) screenPos) in
          if (startDragDistance <=? dragDistance)%Z then
            if (bool_decide (is_Some (mClickedObjectItem t)) || testFlag modifiers AltModifier)
               && negb (testFlag modifiers ShiftModifier)
            then startMoving modifiers t
            else if bool_decide (is_Some (mClickedRotateHandle t))
            then Some (startRotating t)
            else if bool_decide (is_Some (mClickedResizeHandle t))
            then startResizing t
            else Some (startSelecting t)
          else Some t
        else Some t);
  match mAction t1 with
  | Selecting =>
      Some (set_scene (setRectangle (normalized (rectBetween (mStart t1) pos)) (scene t1)) t1)
  | Moving => Some (updateMovingItems pos modifiers t1)
  | Rotating => Some (updateRotatingItems pos modifiers t1)
  | Resizing => updateResizingItems pos modifiers t1
  | NoAction => Some t1
  end.

End ObjectSelectionTool.

(** ** The rest of the file: bounds, presses, releases and keys *)

(** Modelled from the spec: [QPolygonF::translated] and
    [QPolygonF::boundingRect] are Qt's.  The bounding rectangle of no point
    is the rectangle (0,0,0,0); otherwise one pass keeps the least and the
    greatest coordinate seen. *)
Definition translated (offset : QPointF) (polygon : list QPointF) : list QPointF :=
  map (fun p => padd p offset) polygon.

Record Extent := mkExtent { minx : qreal; maxx : qreal; miny : qreal; maxy : qreal }.

Definition extend (e : Extent) (p : QPointF) : Extent :=
  let '(lo, hi) := if decide (px p < minx e) then (px p, maxx e)
                   else if decide (maxx e < px p) then (minx e, px p)
                   else (minx e, maxx e) in
  let '(lo', hi') := if decide (py p < miny e) then (py p, maxy e)
                     else if decide (maxy e < py p) then (miny e, py p)
                     else (miny e, maxy e) in
  mkExtent lo hi lo' hi'.

Definition boundingRect (polygon : list QPointF) : QRectF :=
  match polygon with
  | [] => mkRectF 0 0 0 0
  | p :: rest =>
      let e := foldl extend (mkExtent (px p) (px p) (py p) (py p)) rest in
      mkRectF (minx e) (miny e) (maxx e - minx e) (maxy e - miny e)
  end.

(** [MapObject::bounds]: the rectangle of the position and the size. *)
Definition bounds (object : MapObject.t) : QRectF :=
  rectOf (MapObject.position object) (MapObject.size object).

(** Lines 619-640. *)
Definition pixelBounds (object : MapObject.t) : QRectF :=
  match MapObject.shape object with
  | MapObject.Ellipse | MapObject.Rectangle =>
      align (bounds object) (MapObject.alignment object)
  | MapObject.Polygon | MapObject.Polyline =>
      boundingRect (translated (MapObject.position object) (MapObject.polygon object))
  end.

(** The corners and the centre of a [QRectF]. *)
Definition topRight (r : QRectF) : QPointF := mkPointF (rx r + rw r) (ry r).
Definition bottomLeft (r : QRectF) : QPointF := mkPointF (rx r) (ry r + rh r).
Definition bottomRight (r : QRectF) : QPointF := mkPointF (rx r + rw r) (ry r + rh r).
Definition center (r : QRectF) : QPointF :=
  mkPointF (rx r + rw r / real 2) (ry r + rh r / real 2).

Inductive MouseButton := LeftButton | RightButton | MiddleButton.

#[global] Instance MouseButton_eq_dec : EqDecision MouseButton.
Proof. solve_decision. Defined.

(** What the tool reads of a [QGraphicsSceneMouseEvent]; [hasView] tells
    whether [findView] finds the view of the event. *)
Record MouseEvent := mkMouseEvent {
  button : MouseButton;
  scenePos : QPointF;
  screenPos : QPoint;
  modifiers : Z;
  hasView : bool }.

(** The item [MapScene::itemAt] returns, as far as the casts of
    [mousePressed] tell it apart. *)
Inductive ClickedItem :=
  | NoItem
  | OnRotateHandle (corner : AnchorPosition)
  | OnResizeHandle (anchor : AnchorPosition)
  | OtherItem.

Inductive Key := Key_Up | Key_Down | Key_Left | Key_Right | Key_Other.

Record KeyEvent := mkKeyEvent { key : Key; keyModifiers : Z }.

(** The queries on the scene and the base class [AbstractObjectTool], whose
    code is outside this file of the repository. *)
Class SceneQueries := {
  itemAt : Tool -> QPointF -> ClickedItem;
  topMostObjectItemAt : Tool -> QPointF -> option nat;
  objectItemsIn : Scene -> QRectF -> gset nat;
  baseMousePressed : MouseEvent -> Tool -> Tool;
  baseKeyPressed : KeyEvent -> Tool -> bool * Tool }.

(** The map's tile size and the two preferences [keyPressed] reads. *)
Class MapSettings := {
  tileWidth : Z;
  tileHeight : Z;
  snapToFineGrid : bool;
  gridFine : Z;
  isometric : bool }.

Definition ofInt (n : Z) : qreal := real (inject_Z n).

Definition set_press (pressed : bool) (object : option nat)
    (rotateHandle resizeHandle : option AnchorPosition) (t : Tool) : Tool :=
  mkTool pressed object rotateHandle resizeHandle (mResizingLimitHorizontal t)
         (mResizingLimitVertical t) (mMode t) (mAction t) (mStart t) (mScreenStart t)
         (mOrigin t) (mAlignPosition t) (mMovingObjects t) (handles t) (scene t)
         (undoStack t).

Definition set_mScreenStart (v : QPoint) (t : Tool) : Tool :=
  mkTool (mMousePressed t) (mClickedObjectItem t) (mClickedRotateHandle t)
         (mClickedResizeHandle t) (mResizingLimitHorizontal t) (mResizingLimitVertical t)
         (mMode t) (mAction t) (mStart t) v (mOrigin t) (mAlignPosition t)
         (mMovingObjects t) (handles t) (scene t) (undoStack t).

Section Events.
Context `{Libm} `{MapRenderer} `{SnapHelperApi} `{Platform} `{SceneQueries} `{MapSettings}.

(** Lines 709-716. *)
Definition objectTransform (object : MapObject.t) : QTransform :=
  if decide (MapObject.rotation object <> 0)
  then rotateAt (pixelToScreenCoords (MapObject.position object)) (MapObject.rotation object)
  else identityTransform.

(** The frame [updateHandles] gives to one selected object that is resized
    in pixel space (lines 746-763). *)
Definition pixelSpaceFrame (object : MapObject.t) : Frame :=
  let bounds := pixelBounds object in
  let transform := objectTransform object in
  let corner p := tMap transform (pixelToScreenCoords p) in
  mkFrame (corner (topLeft bounds)) (corner (topRight bounds))
          (corner (bottomLeft bounds)) (corner (bottomRight bounds))
          (corner (center bounds))
          (if isometric then MapObject.rotation object + real 45
           else MapObject.rotation object).

(** The step of an arrow key (lines 397-405), and the step a key press
    moves by once Shift has scaled it to the tile size and the fine grid has
    divided it (lines 415-424). *)
Definition arrowStep (k : Key) : option QPointF :=
  match k with
  | Key_Up => Some (mkPointF 0 (- (1)))
  | Key_Down => Some (mkPointF 0 1)
  | Key_Left => Some (mkPointF (- (1)) 0)
  | Key_Right => Some (mkPointF 1 0)
  | Key_Other => None
  end.

Definition keyMoveBy (keyModifiers0 : Z) (moveBy0 : QPointF) : QPointF :=
  let moveFast := testFlag keyModifiers0 ShiftModifier in
  if moveFast then
    let scaled := mkPointF (px moveBy0 * ofInt tileWidth) (py moveBy0 * ofInt tileHeight) in
    if snapToFineGrid
    then mkPointF (px scaled / ofInt gridFine) (py scaled / ofInt gridFine)
    else scaled
  else moveBy0.

Definition nudge (moveBy : QPointF) (it : MapObjectItem.t) : MapObjectItem.t :=
  MapObjectItem.onObject
    (fun object => MapObject.setPosition (padd (MapObject.position object) moveBy) object)
    it.

(** Lines 388-437.  The first component tells whether the event was
    ignored. *)
Definition keyPressed (event : KeyEvent) (t : Tool) : bool * Tool :=
  if decide (mAction t <> NoAction) then (true, t)
  else
    match arrowStep (key event) with
    | None => baseKeyPressed event t
    | Some moveBy0 =>
        let selected := elements (selectedObjectItems (scene t)) in
        if bool_decide (moveBy0 = origin0) || bool_decide (selected = [])
           || testFlag (keyModifiers event) ControlModifier
        then (true, t)
        else
          let moveBy := keyMoveBy (keyModifiers event) moveBy0 in
          let macro :=
            omap (fun i => it ← items (scene t) !! i;
                           Some (MoveMapObject i
                                   (MapObject.position (MapObjectItem.mapObject it))))
                 selected in
          (false,
           pushMacro macro
             (set_scene (setItems (foldl (fun m i => alter (nudge moveBy) i m)
                                         (items (scene t)) selected)
                                  (scene t)) t))
    end.

(** Lines 491-524. *)
Definition mousePressed (event : MouseEvent) (t : Tool) : Tool :=
  if decide (mAction t <> NoAction) then t
  else
    match button event with
    | LeftButton =>
        let t1 := set_mScreenStart (screenPos event)
                    (set_mStart (scenePos event)
                       (set_press true (mClickedObjectItem t) (mClickedRotateHandle t)
                                  (mClickedResizeHandle t) t)) in
        let clickedItem := if hasView event then itemAt t1 (scenePos event) else NoItem in
        let clickedRotateHandle :=
          match clickedItem with OnRotateHandle corner => Some corner | _ => None end in
        let clickedResizeHandle :=
          match clickedItem with OnResizeHandle anchor => Some anchor | _ => None end in
        let object :=
          match clickedRotateHandle, clickedResizeHandle with
          | None, None => topMostObjectItemAt t1 (mStart t1)
          | _, _ => mClickedObjectItem t1
          end in
        set_press true object clickedRotateHandle clickedResizeHandle t1
    | _ => baseMousePressed event t
    end.

(** Lines 852-875. *)
Definition updateSelection (pos : QPointF) (modifiers0 : Z) (t : Tool) : Tool :=
  let rect := normalized (rectBetween (mStart t) pos) in
  let rect1 := mkRectF (rx rect) (ry rect) (qMax 1 (rw rect)) (rh rect) in
  let rect2 := mkRectF (rx rect1) (ry rect1) (rw rect1) (qMax 1 (rh rect1)) in
  let selectedItems := objectItemsIn (scene t) rect2 in
  if negb (Z.land modifiers0 (Z.lor ControlModifier ShiftModifier) =? 0)%Z
  then setSelectedObjectItems (selectedItems ∪ selectedObjectItems (scene t)) t
  else setSelectedObjectItems selectedItems (setMode Resize t).

(** Lines 526-579. *)
Definition mouseReleased (event : MouseEvent) (t : Tool) : Tool :=
  if decide (button event <> LeftButton) then t
  else
    let t1 :=
      match mAction t with
      | NoAction =>
          if bool_decide (is_Some (mClickedRotateHandle t))
             || bool_decide (is_Some (mClickedResizeHandle t))
          then t
          else
            match mClickedObjectItem t with
            | Some clicked =>
                let selection := selectedObjectItems (scene t) in
                if negb (Z.land (modifiers event)
                                (Z.lor ShiftModifier ControlModifier) =? 0)%Z
                then
                  if decide (clicked ∈ selection)
                  then setSelectedObjectItems (selection ∖ {[ clicked ]}) t
                  else setSelectedObjectItems (selection ∪ {[ clicked ]}) t
                else if decide (clicked ∈ selection)
                then setSelectedObjectItems selection
                       (setMode (if decide (mMode t = Resize) then Rotate else Resize) t)
                else setSelectedObjectItems {[ clicked ]} (setMode Resize t)
            | None =>
                if negb (testFlag (modifiers event) ShiftModifier)
                then setSelectedObjectItems ∅ t
                else t
            end
      | Selecting =>
          let t2 := updateSelection (scenePos event) (modifiers event) t in
          set_mAction NoAction (set_scene (showRectangle false (scene t2)) t2)
      | Moving => finishMoving (scenePos event) t
      | Rotating => finishRotating (scenePos event) t
      | Resizing => finishResizing (scenePos event) t
      end in
    set_press false None None None t1.

End Events.

(** ** Notions the further properties are stated with *)



(** A point within a rectangle, its edges included, and within the extent
    of a pass over a polygon. *)
Definition inside (r : QRectF) (p : QPointF) : Prop :=
  rx r <= px p /\ px p <= rx r + rw r /\ ry r <= py p /\ py p <= ry r + rh r.

Definition within (e : Extent) (p : QPointF) : Prop :=
  minx e <= px p /\ px p <= maxx e /\ miny e <= py p /\ py p <= maxy e.

(** The anchor across the frame. *)
Definition opposite (a : AnchorPosition) : AnchorPosition :=
  match a with
  | TopLeftAnchor => BottomRightAnchor
  | TopRightAnchor => BottomLeftAnchor
  | BottomLeftAnchor => TopRightAnchor
  | BottomRightAnchor => TopLeftAnchor
  | TopAnchor => BottomAnchor
  | LeftAnchor => RightAnchor
  | RightAnchor => LeftAnchor
  | BottomAnchor => TopAnchor
  end.





(** ** A concrete setting for the examples

    An orthogonal map (pixel and screen coordinates coincide), a snap helper
    that is off unless toggled and then snaps to whole pixels, the default
    drag distance of Qt, and sine, cosine and arc tangent given on the axes
    only. *)

Definition orthogonalRenderer : MapRenderer :=
  {| pixelToScreenCoords := fun p => p; screenToPixelCoords := fun p => p |}.

Definition pixelSnapHelper : SnapHelperApi :=
  {| SnapHelper := bool;
     newSnapHelper := fun _ => false;
     toggleSnap := negb;
     snaps := fun on => on;
     snap := fun (on : bool) p => if on then mkPointF (floor (px p)) (floor (py p)) else p |}.

Definition axisLibm : Libm :=
  {| std_sin := fun a => if decide (a = M_PI / real 2) then 1 else 0;
     std_cos := fun a => if decide (a = M_PI / real 2) then 0 else 1;
     std_atan2 := fun y x =>
       if decide (y = 0) then (if decide (x < 0) then M_PI else 0)
       else if decide (x = 0) then (if decide (0 < y) then M_PI / real 2 else - (M_PI / real 2))
       else 0 |}.

Definition itemBounds (it : MapObjectItem.t) : QRectF :=
  rectOf (MapObject.position (MapObjectItem.mapObject it))
         (MapObject.size (MapObjectItem.mapObject it)).

Definition united (a b : QRectF) : QRectF :=
  let left := qMin (rx a) (rx b) in
  let top := qMin (ry a) (ry b) in
  let right := qMax (rx a + rw a) (rx b + rw b) in
  let bottom := qMax (ry a + rh a) (ry b + rh b) in
  mkRectF left top (right - left) (bottom - top).

Definition frameOfRect (r : QRectF) : Frame :=
  mkFrame (mkPointF (rx r) (ry r)) (mkPointF (rx r + rw r) (ry r))
          (mkPointF (rx r) (ry r + rh r)) (mkPointF (rx r + rw r) (ry r + rh r))
          (mkPointF (rx r + rw r / real 2) (ry r + rh r / real 2)) 0.

(** The frame of unrotated, top-left aligned rectangles: their bounding box. *)
Definition boxFrame (s : Scene) : Frame :=
  match omap (fun i => items s !! i) (elements (selectedObjectItems s)) with
  | [] => frameOfRect (mkRectF 0 0 0 0)
  | it :: rest => frameOfRect (foldl (fun acc i => united acc (itemBounds i)) (itemBounds it) rest)
  end.

Definition desktop : Platform :=
  {| startDragDistance := 10; selectionFrame := boxFrame |}.

Section Scenes.
#[local] Existing Instance orthogonalRenderer.
#[local] Existing Instance pixelSnapHelper.
#[local] Existing Instance axisLibm.
#[local] Existing Instance desktop.

Definition rectangleItem (p : QPointF) (s : QSizeF) (a : Alignment) : MapObjectItem.t :=
  MapObjectItem.mk p 0 0 (MapObject.mk p s MapObject.Rectangle [] 0 a true UnknownOrder).

Definition noHandles : Handles :=
  mkHandles origin0 false (fun _ => origin0) false
            (fun _ => mkResizeHandle origin0 origin0) false 0.

(** A tool at rest over a scene in which every item is selected. *)
Definition idleTool (l : list (nat * MapObjectItem.t)) : Tool :=
  setSelectedObjectItems (list_to_set l.*1)
    (mkTool false None None None false false Resize NoAction origin0 (mkPoint 0 0)
            origin0 origin0 [] noHandles
            (mkScene (list_to_map l) ∅ (mkRectF 0 0 0 0) false) []).

(** The members [mousePressed] (lines 491-524) writes, the hit test being
    given by its result. *)
Definition pressed (start : QPointF) (screenStart : QPoint) (object : option nat)
    (rotateHandle resizeHandle : option AnchorPosition) (t : Tool) : Tool :=
  mkTool true object rotateHandle resizeHandle (mResizingLimitHorizontal t)
         (mResizingLimitVertical t) (mMode t) (mAction t) start screenStart (mOrigin t)
         (mAlignPosition t) (mMovingObjects t) (handles t) (scene t) (undoStack t).

Definition twoSquares : list (nat * MapObjectItem.t) :=
  [(1%nat, rectangleItem (mkPointF 0 0) (mkSizeF (real 10) (real 10)) TopLeft);
   (2%nat, rectangleItem (mkPointF (real 20) (real 10)) (mkSizeF (real 10) (real 10)) TopLeft)].

(** Two squares selected, a press on a resize handle, and the gesture after
    the drag has started. *)
Definition resizingTwo (anchor : AnchorPosition) : Tool :=
  let t := idleTool twoSquares in
  let p := handlePos (mResizeHandles (handles t) anchor) in
  default t (startResizing
               (pressed p (mkPoint 0 0) None None (Some anchor) t)).

(** Two squares selected, a press on the first one at (5,5), and the
    gesture after the drag has started. *)
Definition movingTwo : Tool :=
  let t := idleTool twoSquares in
  default t (startMoving 0
               (pressed (mkPointF (real 5) (real 5)) (mkPoint 0 0) (Some 1%nat) None None t)).

(** The same gesture after the pointer has gone to (25,15). *)
Definition movedTwo : Tool :=
  updateMovingItems (mkPointF (real 25) (real 15)) 0 movingTwo.

(** The origin indicator is movable: the user drags it to [p]. *)
Definition withOriginAt (p : QPointF) (t : Tool) : Tool :=
  set_handles (setOriginPos p (handles t)) t.

(** The same scene in Rotate mode, the origin indicator dragged to (15,20),
    a press on the rotate handle of [corner], and the gesture after the drag
    has started. *)
Definition rotatingTwo (corner : AnchorPosition) : Tool :=
  let t := withOriginAt (mkPointF (real 15) (real 20))
                        (setMode Rotate (idleTool twoSquares)) in
  startRotating (pressed (mRotateHandles (handles t) corner) (mkPoint 0 0)
                         None (Some corner) None t).

(** One rectangle of size 0x0 at (5,5) with the given alignment, pressed on
    its bottom right resize handle. *)
Definition resizingEmpty (a : Alignment) : Tool :=
  let t := idleTool [(1%nat, rectangleItem (mkPointF (real 5) (real 5)) (mkSizeF 0 0) a)] in
  default t (startResizing
               (pressed (mkPointF (real 5) (real 5)) (mkPoint 0 0) None None
                        (Some BottomRightAnchor) t)).

(** Nothing selected and a press on the empty canvas. *)
Definition pressedOnCanvas : Tool :=
  pressed origin0 (mkPoint 0 0) None None None (idleTool []).

End Scenes.

(** ** A concrete setting for the presses and the keys

    Scene queries over plain rectangles: a handle is hit on its own
    position while it is visible, the topmost object at a point is the one
    with the greatest key whose bounds hold the point, and the objects in a
    rectangle are those whose bounds meet it.  The base class does nothing.
    Tiles of 32 by 32 pixels, no fine grid, an orthogonal map. *)

Definition resizeAnchors : list AnchorPosition :=
  [BottomRightAnchor; BottomLeftAnchor; TopRightAnchor; TopLeftAnchor;
   TopAnchor; LeftAnchor; RightAnchor; BottomAnchor].

Definition handleHit (t : Tool) (p : QPointF) : ClickedItem :=
  let h := handles t in
  match (if resizeHandlesVisible h
         then list_find (fun a => handlePos (mResizeHandles h a) = p) resizeAnchors
         else None) with
  | Some (_, a) => OnResizeHandle a
  | None =>
      match (if rotateHandlesVisible h
             then list_find (fun a => mRotateHandles h a = p) (take 4 resizeAnchors)
             else None) with
      | Some (_, a) => OnRotateHandle a
      | None => NoItem
      end
  end.

Definition holds (r : QRectF) (p : QPointF) : bool :=
  bool_decide (rx r <= px p) && bool_decide (px p <= rx r + rw r)
  && bool_decide (ry r <= py p) && bool_decide (py p <= ry r + rh r).

Definition meets (a b : QRectF) : bool :=
  bool_decide (rx a <= rx b + rw b) && bool_decide (rx b <= rx a + rw a)
  && bool_decide (ry a <= ry b + rh b) && bool_decide (ry b <= ry a + rh a).

Definition hitsItem (t : Tool) (p : QPointF) (i : nat) : bool :=
  match items (scene t) !! i with
  | Some it => holds (itemBounds it) p
  | None => false
  end.

Definition objectHit (t : Tool) (p : QPointF) : option nat :=
  head (reverse (filter (fun i => hitsItem t p i = true)
                        (elements (dom (items (scene t)))))).

Definition boxQueries : SceneQueries :=
  {| itemAt := handleHit;
     topMostObjectItemAt := objectHit;
     objectItemsIn := fun s r =>
       dom (filter (fun kv => meets (itemBounds kv.2) r = true) (items s));
     baseMousePressed := fun _ t => t;
     baseKeyPressed := fun _ t => (true, t) |}.

Definition squareTiles : MapSettings :=
  {| tileWidth := 32; tileHeight := 32; snapToFineGrid := false; gridFine := 4;
     isometric := false |}.

Section MoreScenes.
#[local] Existing Instance orthogonalRenderer.
#[local] Existing Instance pixelSnapHelper.
#[local] Existing Instance axisLibm.
#[local] Existing Instance desktop.
#[local] Existing Instance boxQueries.
#[local] Existing Instance squareTiles.

Definition leftEvent (p : QPointF) (modifiers0 : Z) : MouseEvent :=
  mkMouseEvent LeftButton p (mkPoint 0 0) modifiers0 true.

(** Two squares selected and a left press on the first one, at (5,5). *)
Definition pressedOnFirst : Tool :=
  mousePressed (leftEvent (mkPointF (real 5) (real 5)) 0) (idleTool twoSquares).

(** The same scene and a left press beside the squares, at (50,50). *)
Definition pressedBeside : Tool :=
  mousePressed (leftEvent (mkPointF (real 50) (real 50)) 0) (idleTool twoSquares).


Definition triangle : MapObject.t :=
  MapObject.mk (mkPointF (real 2) (real 3)) (mkSizeF 0 0) MapObject.Polygon
               [mkPointF 0 0; mkPointF (real 10) 0; mkPointF (real 5) (real 8)]
               0 TopLeft true UnknownOrder.

Definition emptyRectangle : MapObject.t :=
  MapObject.mk (mkPointF (real 5) (real 5)) (mkSizeF 0 0) MapObject.Rectangle []
               (real 30) TopLeft true UnknownOrder.

(** The first of the two squares. *)
Definition firstSquare : MapObjectItem.t :=
  rectangleItem (mkPointF 0 0) (mkSizeF (real 10) (real 10)) TopLeft.

End MoreScenes.

(** ** Theorems *)

Lemma rect_ext (a b : QRectF) :
  rx a = rx b -> ry a = ry b -> rw a = rw b -> rh a = rh b -> a = b.
Proof. destruct a, b; simpl; intros; subst; reflexivity. Qed.


(** *** Loops over the snapshot list *)

Lemma forEachItem_lookup_other f l m i :
  i ∉ map item l -> forEachItem f l m !! i = m !! i.
Proof.
  revert m. induction l as [|o l IH]; intros m Hi; [reflexivity|].
  simpl. rewrite IH by set_solver.
  apply lookup_alter_ne. set_solver.
Qed.

Lemma forEachItem_lookup f l m o :
  NoDup (map item l) -> o ∈ l ->
  forEachItem f l m !! item o = f o <$> m !! item o.
Proof.
  revert m. induction l as [|o' l IH]; intros m Hnd Ho; [set_solver|].
  simpl in *. apply NoDup_cons in Hnd as [Hnotin Hnd].
  apply elem_of_cons in Ho as [->|Ho].
  - rewrite forEachItem_lookup_other by done. apply lookup_alter_eq.
  - rewrite IH by done. rewrite lookup_alter_ne; [done|].
    intros Heq. apply Hnotin. rewrite Heq. by apply list_elem_of_fmap_2.
Qed.


(** *** Arithmetic on [qreal] *)

(** Goals and hypotheses on [Qc] are taken to [Q], where [lra] and [field]
    work. *)
Ltac to_Q :=
  unfold Qclt, Qcle, real in *;
  repeat match goal with
         | |- @eq Qc _ _ => apply Qc_is_canon
         | Heq : @eq Qc _ _ |- _ => apply (f_equal this) in Heq
         end;
  simpl in *; rewrite ?Qred_correct in *;
  repeat match goal with
         | |- context [Qinv (Z.pos ?p # ?q)] =>
             change (Qinv (Z.pos p # q)) with (Z.pos q # p) in *
         | _ : context [Qinv (Z.pos ?p # ?q)] |- _ =>
             change (Qinv (Z.pos p # q)) with (Z.pos q # p) in *
         end.

Lemma qMax_ge_l (a b : qreal) : a <= qMax a b.
Proof.
  unfold qMax. case_decide; [by apply Qclt_le_weak | apply Qcle_refl].
Qed.

Lemma qMin_glb (c a b : qreal) : c <= a -> c <= b -> c <= qMin a b.
Proof. unfold qMin. by case_decide. Qed.








Section Theorems.
Context `{Libm} `{MapRenderer} `{SnapHelperApi} `{Platform}.

(** *** What the handle updates leave alone *)

Lemma updateHandleVisibility_frame (t : Tool) :
  let t' := updateHandleVisibility t in
  mAction t' = mAction t /\ mStart t' = mStart t /\ scene t' = scene t /\
  mMovingObjects t' = mMovingObjects t /\ undoStack t' = undoStack t.
Proof. repeat split. Qed.

Lemma updateHandles_frame (t : Tool) :
  let t' := updateHandles t in
  mAction t' = mAction t /\ mStart t' = mStart t /\ scene t' = scene t /\
  mMovingObjects t' = mMovingObjects t /\ undoStack t' = undoStack t.
Proof.
  unfold updateHandles. case_decide; [repeat split|].
  destruct (negb _); repeat split.
Qed.

(** The first two statements of every finish handler. *)
Lemma finish_prefix (t : Tool) :
  let t1 := updateHandles (set_mAction NoAction t) in
  mStart t1 = mStart t /\ scene t1 = scene t /\
  mMovingObjects t1 = mMovingObjects t /\ undoStack t1 = undoStack t.
Proof.
  destruct (updateHandles_frame (set_mAction NoAction t)) as (_ & ? & ? & ? & ?).
  repeat split; assumption.
Qed.

(** The snapshot taken from the selection names each item once. *)
Lemma saveSelectionState_NoDup (t : Tool) :
  NoDup (map item (mMovingObjects (saveSelectionState t))).
Proof.
  unfold saveSelectionState. simpl.
  generalize (NoDup_elements (selectedObjectItems (scene t))).
  induction (elements (selectedObjectItems (scene t))) as [|i l IH]; intros Hnd.
  - constructor.
  - apply NoDup_cons in Hnd as [Hi Hnd]. simpl.
    destruct (items (scene t) !! i) as [it|]; simpl; [|by apply IH].
    constructor; [|by apply IH].
    intros Hin. apply Hi.
    apply list_elem_of_fmap in Hin as (o & Ho & Hin).
    apply list_elem_of_omap in Hin as (j & Hj & Hsnap).
    destruct (items (scene t) !! j); simplify_eq/=. done.
Qed.

(** *** Removal of objects during a gesture *)

(** C5. When objects are removed while a Moving or Rotating gesture is
    active, the snapshot list becomes empty, the action keeps its value, and
    every snapshot object that is not among the removed ones is back at its
    old pixel position and its old item position, and, when rotating, at
    its old rotation. *)
Theorem objectsRemoved_rolls_back (objects : list nat) (t : Tool) :
  mAction t = Moving \/ mAction t = Rotating ->
  NoDup (map item (mMovingObjects t)) ->
  let t' := objectsRemoved objects t in
  mMovingObjects t' = [] /\
  mAction t' = mAction t /\
  forall o it, o ∈ mMovingObjects t -> item o ∉ objects ->
    items (scene t) !! item o = Some it ->
    exists it', items (scene t') !! item o = Some it' /\
      MapObject.position (MapObjectItem.mapObject it') = oldPosition o /\
      MapObjectItem.pos it' = oldItemPosition o /\
      (mAction t = Rotating ->
         MapObjectItem.rotation it' = oldRotation o /\
         MapObject.rotation (MapObjectItem.mapObject it') = oldRotation o).
Proof.
  intros Hact Hnd. unfold objectsRemoved.
  case_decide as Hguard; [destruct Hguard, Hact; congruence|].
  simpl. split; [reflexivity|]. split; [reflexivity|].
  intros o it Ho Hkept Hit.
  rewrite forEachItem_lookup, Hit by done. simpl.
  eexists; split; [reflexivity|].
  unfold restoreObject. rewrite decide_False by done.
  case_decide; simpl; repeat split; congruence.
Qed.

(** C10. When objects are removed while a Resizing gesture is active,
    nothing changes: no object is rolled back and the snapshot list stays. *)
Theorem objectsRemoved_while_resizing (objects : list nat) (t : Tool) :
  mAction t = Resizing -> objectsRemoved objects t = t.
Proof.
  intros Hact. unfold objectsRemoved. rewrite decide_True; [reflexivity|].
  rewrite Hact. split; discriminate.
Qed.

(** *** Finishing a gesture *)


(** The snapshot list after a finish handler: dropped when the gesture
    ends away from its start, kept when it ends on its start. *)
Lemma finish_clears_snapshot (pos : QPointF) (t : Tool) :
  mStart t <> pos ->
  mMovingObjects (finishMoving pos t) = [] /\
  mMovingObjects (finishRotating pos t) = [] /\
  mMovingObjects (finishResizing pos t) = [].
Proof.
  intros Hpos. unfold finishMoving, finishRotating, finishResizing.
  destruct (finish_prefix t) as (Hstart & _).
  remember (updateHandles (set_mAction NoAction t)) as t1 eqn:Ht1. clear Ht1.
  rewrite Hstart. rewrite !decide_False by done. by repeat split.
Qed.

Lemma finish_on_start_keeps_snapshot (t : Tool) :
  mMovingObjects (finishMoving (mStart t) t) = mMovingObjects t /\
  mMovingObjects (finishRotating (mStart t) t) = mMovingObjects t /\
  mMovingObjects (finishResizing (mStart t) t) = mMovingObjects t.
Proof.
  unfold finishMoving, finishRotating, finishResizing.
  destruct (finish_prefix t) as (Hstart & _ & Hmoving & _).
  remember (updateHandles (set_mAction NoAction t)) as t1 eqn:Ht1. clear Ht1.
  rewrite Hstart. rewrite !decide_True by done. repeat split; exact Hmoving.
Qed.

(** *** Rotating *)


(** *** Resizing several objects *)

(** What [startResizing] stores: the locks of the clicked handle. *)
Lemma startResizing_limits (t t' : Tool) :
  startResizing t = Some t' ->
  exists anchor, mClickedResizeHandle t' = Some anchor /\
    mAction t' = Resizing /\
    mResizingLimitHorizontal t' = resizingLimitHorizontal anchor /\
    mResizingLimitVertical t' = resizingLimitVertical anchor.
Proof.
  unfold startResizing. destruct (mClickedResizeHandle t) as [anchor|] eqn:Hc;
    simpl; [|discriminate].
  intros [= <-]. exists anchor. by repeat split.
Qed.

Lemma updateResizingItems_several (pos : QPointF) (modifiers : Z) (t : Tool)
    (anchor : AnchorPosition) :
  mClickedResizeHandle t = Some anchor ->
  (2 <= length (mMovingObjects t))%nat ->
  NoDup (map item (mMovingObjects t)) ->
  let pivot := activeOrigin modifiers anchor t in
  let scale := resizeScale (mResizingLimitHorizontal t) (mResizingLimitVertical t)
                 (psub (snappedScreenPos pos modifiers) pivot) (psub (mStart t) pivot) in
  exists t', updateResizingItems pos modifiers t = Some t' /\
    forall o it, o ∈ mMovingObjects t -> items (scene t) !! item o = Some it ->
      exists it', items (scene t') !! item o = Some it' /\
        px (MapObjectItem.pos it') - px pivot = (px (oldItemPosition o) - px pivot) * scale /\
        py (MapObjectItem.pos it') - py pivot = (py (oldItemPosition o) - py pivot) * scale /\
        MapObject.size (MapObjectItem.mapObject it')
          = mkSizeF (wd (oldSize o) * scale) (ht (oldSize o) * scale) /\
        MapObject.position (MapObjectItem.mapObject it')
          = screenToPixelCoords (MapObjectItem.pos it').
Proof.
  intros Hclicked Hlen Hnd pivot scale.
  unfold updateResizingItems. rewrite Hclicked. simpl.
  rewrite decide_False by lia.
  eexists; split; [reflexivity|].
  intros o it Ho Hit. simpl.
  rewrite forEachItem_lookup, Hit by done. simpl.
  eexists; split; [reflexivity|].
  subst scale pivot. unfold resizeObjectBy.
  destruct (MapObject.polygon (MapObjectItem.mapObject it)); simpl;
    (split; [ring|]); (split; [ring|]); split; reflexivity.
Qed.



(** *** Resizing one object *)

Lemma point_ext (a b : QPointF) : px a = px b -> py a = py b -> a = b.
Proof. destruct a, b; simpl; intros; subst; reflexivity. Qed.

(** A rotation about a point keeps that point. *)
Lemma rotateAt_center (c : QPointF) (a : qreal) : tMap (rotateAt c a) c = c.
Proof.
  unfold rotateAt, tRotate.
  case_decide; [|repeat case_decide];
    apply point_ext; simpl; ring.
Qed.

Lemma qMax_add_nonneg (x d : qreal) : 0 <= d -> qMax (x + d) x = x + d.
Proof.
  intros Hd. unfold qMax. case_decide as Hlt; [|reflexivity].
  exfalso. to_Q. lra.
Qed.

(** The bounds that grow out of a rectangle of size 0x0 at [p] when its
    bottom right handle goes 20 right and 10 down. *)
Lemma clampBounds_from_empty (alignment : Alignment) (p : QPointF) :
  clampBounds BottomRightAnchor alignment
              (padd p (mkPointF (real 20) (real 10))) p p (mkSizeF 0 0)
  = unalign (mkRectF (px p) (py p) (real 20) (real 10)) alignment.
Proof.
  assert (H20 : 0 <= real 20) by (to_Q; lra).
  assert (H10 : 0 <= real 10) by (to_Q; lra).
  unfold clampBounds, setBottom, setRight. cbn [px py padd].
  rewrite !qMax_add_nonneg by assumption.
  match goal with
  | |- unalign ?r _ = _ =>
      replace r with (mkRectF (px p) (py p) (real 20) (real 10)); [reflexivity|]
  end.
  assert (Hhalf : 0 / real 2 = 0) by (unfold Qcdiv; ring).
  destruct alignment; apply rect_ext; simpl; rewrite ?Hhalf; ring.
Qed.

(** The run of a Resizing update on one non-tile rectangle of size 0x0
    whose bottom right handle, with its origin on the object, is dragged 20
    right and 10 down in the object's own pixel frame. *)
Lemma resize_empty_run (pos : QPointF) (modifiers : Z) (t : Tool)
    (o : MovingObject) (it : MapObjectItem.t) :
  mMovingObjects t = [o] ->
  items (scene t) !! item o = Some it ->
  mClickedResizeHandle t = Some BottomRightAnchor ->
  testFlag modifiers ShiftModifier = false ->
  testFlag modifiers ControlModifier = false ->
  MapObject.cellIsEmpty (MapObjectItem.mapObject it) = true ->
  MapObject.shape (MapObjectItem.mapObject it) = MapObject.Rectangle ->
  oldSize o = mkSizeF 0 0 ->
  (forall p, screenToPixelCoords (pixelToScreenCoords p) = p) ->
  oldItemPosition o = pixelToScreenCoords (oldPosition o) ->
  resizingOrigin (mResizeHandles (handles t) BottomRightAnchor) = oldItemPosition o ->
  screenToPixelCoords (tMap (rotateAt (oldItemPosition o) (- oldRotation o))
                            (snappedScreenPos pos modifiers))
    = padd (oldPosition o) (mkPointF (real 20) (real 10)) ->
  let newBounds := unalign (mkRectF (px (oldPosition o)) (py (oldPosition o))
                                    (real 20) (real 10))
                           (MapObject.alignment (MapObjectItem.mapObject it)) in
  let newPos := screenToPixelCoords
                  (tMap (rotateAt (oldItemPosition o) (oldRotation o))
                        (pixelToScreenCoords (topLeft newBounds))) in
  let it' := MapObjectItem.onObject (MapObject.setPosition newPos)
               (MapObjectItem.setPos (pixelToScreenCoords newPos)
                  (MapObjectItem.resizeObject (rectSize newBounds) it)) in
  updateResizingItems pos modifiers t
  = Some (set_scene (setItems (<[item o := it']> (items (scene t))) (scene t))
            (set_handles (setOriginPos (oldItemPosition o) (handles t)) t)).
Proof.
  intros Hmoving Hit Hclicked Hshift Hctrl Hcell Hshape Hsize Hround Hitem Horigin Hpos.
  unfold updateResizingItems. rewrite Hclicked. cbn [mbind option_bind].
  unfold activeOrigin. rewrite Hshift, Horigin.
  cbn [mMovingObjects set_handles]. rewrite Hmoving.
  rewrite decide_True by reflexivity.
  unfold updateResizingSingleItem.
  cbn [mMovingObjects set_handles scene handles mClickedResizeHandle mStart
       mResizingLimitHorizontal mResizingLimitVertical setOriginPos mResizeHandles].
  rewrite Hmoving. cbn [head mbind option_bind]. rewrite Hit, Hclicked.
  cbn [mbind option_bind].
  unfold resizeInPixelSpace. rewrite Hcell, Hctrl, Hshape, Horigin.
  rewrite bool_decide_eq_true_2 by reflexivity.
  rewrite bool_decide_eq_true_2 by reflexivity.
  cbn [andb orb negb].
  rewrite rotateAt_center, Hpos, Hitem, Hround, Hsize.
  rewrite clampBounds_from_empty.
  reflexivity.
Qed.

(** C3, as the code has it.  A non-tile rectangle of size 0x0, alone in the
    selection, with its bottom right handle and that handle's origin on the
    object, Shift and Control up: dragging the handle 20 right and 10 down
    from the origin gives the size (20,10).  The bounds come from clamping
    the right and bottom edges to the pointer, whatever the start point of
    the gesture is.  The position is the origin in pixel space moved by the
    alignment offset of the new bounds and turned with the object: it is the
    origin itself for a top-left aligned object. *)
Theorem resize_empty_rectangle (pos : QPointF) (modifiers : Z) (t : Tool)
    (o : MovingObject) (it : MapObjectItem.t) :
  mMovingObjects t = [o] ->
  items (scene t) !! item o = Some it ->
  mClickedResizeHandle t = Some BottomRightAnchor ->
  testFlag modifiers ShiftModifier = false ->
  testFlag modifiers ControlModifier = false ->
  MapObject.cellIsEmpty (MapObjectItem.mapObject it) = true ->
  MapObject.shape (MapObjectItem.mapObject it) = MapObject.Rectangle ->
  oldSize o = mkSizeF 0 0 ->
  (forall p, screenToPixelCoords (pixelToScreenCoords p) = p) ->
  oldItemPosition o = pixelToScreenCoords (oldPosition o) ->
  resizingOrigin (mResizeHandles (handles t) BottomRightAnchor) = oldItemPosition o ->
  screenToPixelCoords (tMap (rotateAt (oldItemPosition o) (- oldRotation o))
                            (snappedScreenPos pos modifiers))
    = padd (oldPosition o) (mkPointF (real 20) (real 10)) ->
  let pivot := resizingOrigin (mResizeHandles (handles t) BottomRightAnchor) in
  let offset := alignmentOffset (mkRectF 0 0 (real 20) (real 10))
                                (MapObject.alignment (MapObjectItem.mapObject it)) in
  exists t' it',
    updateResizingItems pos modifiers t = Some t' /\
    items (scene t') !! item o = Some it' /\
    MapObject.size (MapObjectItem.mapObject it') = mkSizeF (real 20) (real 10) /\
    MapObject.position (MapObjectItem.mapObject it')
      = screenToPixelCoords
          (tMap (rotateAt (oldItemPosition o) (oldRotation o))
                (pixelToScreenCoords (padd (screenToPixelCoords pivot) offset))) /\
    (MapObject.alignment (MapObjectItem.mapObject it) = TopLeft ->
       MapObject.position (MapObjectItem.mapObject it') = screenToPixelCoords pivot) /\
    (forall start, exists t'',
       updateResizingItems pos modifiers (set_mStart start t) = Some t'' /\
       items (scene t'') = items (scene t')).
Proof.
  intros Hmoving Hit Hclicked Hshift Hctrl Hcell Hshape Hsize Hround Hitem Horigin Hpos
         pivot offset.
  assert (Hpivot : screenToPixelCoords pivot = oldPosition o)
    by (subst pivot; rewrite Horigin, Hitem; apply Hround).
  assert (Hcorner : forall al x y,
            topLeft (unalign (mkRectF x y (real 20) (real 10)) al)
            = padd (mkPointF x y) (alignmentOffset (mkRectF 0 0 (real 20) (real 10)) al))
    by (intros al x y; destruct al; reflexivity).
  do 2 eexists. split.
  { apply (resize_empty_run pos modifiers t o it); assumption. }
  cbn [scene set_scene items setItems]. rewrite lookup_insert_eq.
  split; [reflexivity|].
  cbn [MapObjectItem.mapObject MapObjectItem.onObject MapObjectItem.setPos
       MapObjectItem.resizeObject MapObject.size MapObject.position
       MapObject.setPosition MapObject.setSize].
  split; [reflexivity|].
  rewrite Hcorner, Hpivot.
  replace (mkPointF (px (oldPosition o)) (py (oldPosition o))) with (oldPosition o)
    by (by destruct (oldPosition o)).
  split; [reflexivity|]. split.
  - intros Hal. subst offset. rewrite Hal. cbn [alignmentOffset].
    replace (padd (oldPosition o) origin0) with (oldPosition o)
      by (apply point_ext; simpl; ring).
    rewrite <- Hitem, rotateAt_center, Hitem. apply Hround.
  - intros start. eexists. split.
    { apply (resize_empty_run pos modifiers (set_mStart start t) o it); assumption. }
    reflexivity.
Qed.

(** *** The dispatch of a drag *)

Lemma saveSelectionState_items (t : Tool) (o : MovingObject) :
  o ∈ mMovingObjects (saveSelectionState t) -> is_Some (items (scene t) !! item o).
Proof.
  unfold saveSelectionState. cbn [mMovingObjects set_mMovingObjects].
  intros Ho. apply list_elem_of_omap in Ho as (i & _ & Hi).
  destruct (items (scene t) !! i) as [it|] eqn:Hlook; simplify_eq/=. by eexists.
Qed.

Lemma updateResizingItems_defined (pos : QPointF) (modifiers : Z) (t : Tool) :
  is_Some (mClickedResizeHandle t) ->
  (forall o, o ∈ mMovingObjects t -> is_Some (items (scene t) !! item o)) ->
  exists t', updateResizingItems pos modifiers t = Some t' /\ mAction t' = mAction t.
Proof.
  intros [anchor Hclicked] Hitems. unfold updateResizingItems.
  rewrite Hclicked. cbn [mbind option_bind]. case_decide as Hlen.
  - cbn [mMovingObjects set_handles] in Hlen.
    unfold updateResizingSingleItem.
    cbn [mMovingObjects set_handles scene mClickedResizeHandle].
    destruct (mMovingObjects t) as [|o [|]] eqn:Hmoving; try discriminate.
    cbn [head mbind option_bind].
    destruct (Hitems o) as [it Hit]; [set_solver|].
    rewrite Hit, Hclicked. cbn [mbind option_bind].
    destruct (_ && _ && _); eexists; split; reflexivity.
  - eexists; split; reflexivity.
Qed.

(** Once the pointer is pressed, no gesture is active and the drag reaches
    the threshold, [mouseMoved] starts the gesture of the first case that
    applies: Moving (an object was clicked or Alt is held, and Shift is not
    held), Rotating, Resizing, Selecting.  Moving needs something to move:
    [startMoving] has a result only if its snapshot is not empty. *)
Lemma mouseMoved_dispatch (pos : QPointF) (modifiers : Z) (screenPos : QPoint) (t : Tool) :
  mAction t = NoAction -> mMousePressed t = true ->
  (startDragDistance <= manhattanLength (isub (mScreenStart t) screenPos))%Z ->
  let move := (bool_decide (is_Some (mClickedObjectItem t))
               || testFlag modifiers AltModifier)
              && negb (testFlag modifiers ShiftModifier) in
  let expected :=
    if move then Moving
    else if bool_decide (is_Some (mClickedRotateHandle t)) then Rotating
    else if bool_decide (is_Some (mClickedResizeHandle t)) then Resizing
    else Selecting in
  (move = true -> is_Some (startMoving modifiers t)) ->
  exists t', mouseMoved pos modifiers screenPos t = Some t' /\ mAction t' = expected.
Proof.
  intros Hact Hpressed Hdrag move expected Hmove. unfold mouseMoved.
  rewrite Hact, Hpressed, bool_decide_eq_true_2 by reflexivity.
  cbn [andb]. apply Z.leb_le in Hdrag. rewrite Hdrag.
  fold move. subst expected. destruct move.
  - destruct (Hmove eq_refl) as [tm Htm]. rewrite Htm. cbn [mbind option_bind].
    assert (Hm : mAction tm = Moving).
    { unfold startMoving in Htm.
      destruct (head _) in Htm; [|discriminate]. by injection Htm as <-. }
    rewrite Hm. eexists; split; [reflexivity | exact Hm].
  - destruct (bool_decide (is_Some (mClickedRotateHandle t))).
    { cbn [mbind option_bind].
      change (mAction (startRotating t)) with Rotating. cbv iota.
      eexists; split; reflexivity. }
    destruct (bool_decide (is_Some (mClickedResizeHandle t))) eqn:Hresize.
    + apply bool_decide_eq_true_1 in Hresize. destruct Hresize as [anchor Hanchor].
      unfold startResizing. rewrite Hanchor. cbn [mbind option_bind].
      match goal with
      | |- context [match mAction ?tr with _ => _ end] =>
          change (mAction tr) with Resizing; cbv iota;
          destruct (updateResizingItems_defined pos modifiers tr) as (t' & Hrun & Ht')
      end.
      * by eexists.
      * intros o Ho. by apply (saveSelectionState_items _ o).
      * exists t'. split; [exact Hrun | exact Ht'].
    + cbn [mbind option_bind].
      change (mAction (startSelecting t)) with Selecting. cbv iota.
      eexists; split; reflexivity.
Qed.

(** Below the threshold nothing starts, whatever was clicked and whatever
    modifier is held. *)
Lemma mouseMoved_below_threshold (pos : QPointF) (modifiers : Z) (screenPos : QPoint)
    (t : Tool) :
  mAction t = NoAction ->
  (manhattanLength (isub (mScreenStart t) screenPos) < startDragDistance)%Z ->
  mouseMoved pos modifiers screenPos t = Some t.
Proof.
  intros Hact Hdrag. unfold mouseMoved.
  apply Z.leb_gt in Hdrag. rewrite Hdrag.
  destruct (_ && _); cbn [mbind option_bind]; by rewrite Hact.
Qed.

End Theorems.
(** ** Examples: the theorems at work on the concrete setting *)

Section Examples.
#[local] Existing Instance orthogonalRenderer.
#[local] Existing Instance pixelSnapHelper.
#[local] Existing Instance axisLibm.
#[local] Existing Instance desktop.

(** Closed comparisons of rationals, by computation. *)
Ltac qc_eq := apply Qc_is_canon; vm_compute; reflexivity.
Ltac qc_neq := let Heq := fresh in
  intros Heq; apply (f_equal this) in Heq; vm_compute in Heq; discriminate.
Ltac nodup_items := apply (bool_decide_unpack _); vm_compute; reflexivity.




(** The claim C3 as it is written fails for a rectangle that is not
    top-left aligned: a centred rectangle of size 0x0 at (5,5), its bottom
    right handle dragged to (25,15).  The size becomes (20,10) and the
    position (15,10), the centre of the new bounds, not the origin (5,5). *)
Lemma resize_empty_centered_position :
  let t := resizingEmpty Center in
  let pivot := resizingOrigin (mResizeHandles (handles t) BottomRightAnchor) in
  exists t' it',
    updateResizingItems (mkPointF (real 25) (real 15)) 0 t = Some t' /\
    items (scene t') !! 1%nat = Some it' /\
    pivot = mkPointF (real 5) (real 5) /\
    MapObject.size (MapObjectItem.mapObject it') = mkSizeF (real 20) (real 10) /\
    MapObject.position (MapObjectItem.mapObject it') = mkPointF (real 15) (real 10) /\
    MapObject.position (MapObjectItem.mapObject it') <> screenToPixelCoords pivot.
Proof.
  intros t pivot. do 2 eexists.
  split; [vm_compute; reflexivity|].
  split; [vm_compute; reflexivity|].
  split; [apply point_ext; qc_eq|].
  split; [cbn; f_equal; qc_eq|].
  split; [apply point_ext; qc_eq|].
  intros Heq. apply (f_equal (fun p => this (px p))) in Heq.
  vm_compute in Heq. discriminate.
Qed.

Lemma resize_empty_rectangle_witness :
  let t := resizingEmpty TopLeft in
  exists t' it',
    updateResizingItems (mkPointF (real 25) (real 15)) 0 t = Some t' /\
    items (scene t') !! 1%nat = Some it' /\
    MapObject.size (MapObjectItem.mapObject it') = mkSizeF (real 20) (real 10) /\
    MapObject.position (MapObjectItem.mapObject it')
      = resizingOrigin (mResizeHandles (handles t) BottomRightAnchor).
Proof.
  intros t.
  pose (it := rectangleItem (mkPointF (real 5) (real 5)) (mkSizeF 0 0) TopLeft).
  destruct (resize_empty_rectangle (mkPointF (real 25) (real 15)) 0 t (snapshotOf 1 it) it)
    as (t' & it' & Hrun & Hit' & Hsize & _ & Hpos & _);
    [reflexivity | reflexivity | reflexivity | reflexivity | reflexivity
    | reflexivity | reflexivity | reflexivity | reflexivity | reflexivity
    | apply point_ext; qc_eq | apply point_ext; qc_eq |].
  exists t', it'. repeat split; [exact Hrun | exact Hit' | exact Hsize |].
  exact (Hpos eq_refl).
Defined.



Lemma objectsRemoved_rolls_back_witness :
  let t' := objectsRemoved [2%nat] movedTwo in
  mMovingObjects t' = [] /\ mAction t' = Moving /\
  exists it', items (scene t') !! 1%nat = Some it' /\
    MapObject.position (MapObjectItem.mapObject it') = mkPointF 0 0.
Proof.
  intros t'.
  destruct (objectsRemoved_rolls_back [2%nat] movedTwo) as (Hnil & Hact & Hall);
    [left; reflexivity | nodup_items |].
  split; [exact Hnil|]. split; [exact Hact|].
  pose (o := snapshotOf 1 (rectangleItem (mkPointF 0 0) (mkSizeF (real 10) (real 10))
                                         TopLeft)).
  destruct (items (scene movedTwo) !! 1%nat) as [it|] eqn:Hit; [|discriminate].
  destruct (Hall o it) as (it' & Hit' & Hpos & _);
    [apply (bool_decide_unpack _); vm_compute; reflexivity
    | apply (bool_decide_unpack _); vm_compute; reflexivity
    | exact Hit |].
  exists it'. split; [exact Hit' | exact Hpos].
Defined.

Lemma objectsRemoved_while_resizing_witness :
  objectsRemoved [1%nat] (resizingTwo BottomAnchor) = resizingTwo BottomAnchor.
Proof. apply objectsRemoved_while_resizing. reflexivity. Defined.


(** C7.  The code does not do what the claim says: a gesture that ends on
    its start point leaves through the early return of its finish handler,
    before the snapshot list is cleared.  Two squares, each of the three
    gestures, the release on the start point: no action is left and both
    snapshots are still in the list. *)
Theorem finish_on_start_leaves_snapshot :
  let moved := finishMoving (mStart movingTwo) movingTwo in
  let rotated := finishRotating (mStart (rotatingTwo BottomRightAnchor))
                                (rotatingTwo BottomRightAnchor) in
  let resized := finishResizing (mStart (resizingTwo BottomRightAnchor))
                                (resizingTwo BottomRightAnchor) in
  (mAction moved = NoAction /\ map item (mMovingObjects moved) = [2; 1]%nat) /\
  (mAction rotated = NoAction /\ map item (mMovingObjects rotated) = [2; 1]%nat) /\
  (mAction resized = NoAction /\ map item (mMovingObjects resized) = [2; 1]%nat).
Proof. repeat split; vm_compute; reflexivity. Qed.

(** C8.  The code does not do what the claim says when Alt forces a move
    and nothing is selected: a press on the empty canvas, Alt held, the
    pointer 20 pixels away with a threshold of 10.  [mouseMoved] goes into
    [startMoving], whose snapshot list is empty, and the first element it
    reads does not exist: the call has no result, and no Moving gesture
    starts. *)
Theorem alt_drag_with_nothing_selected :
  let t := pressedOnCanvas in
  let screenPos := mkPoint 20 0 in
  mAction t = NoAction /\ mMousePressed t = true /\
  selectedObjectItems (scene t) = ∅ /\
  (startDragDistance <= manhattanLength (isub (mScreenStart t) screenPos))%Z /\
  testFlag AltModifier AltModifier = true /\
  testFlag AltModifier ShiftModifier = false /\
  mMovingObjects (saveSelectionState t) = [] /\
  mouseMoved (mkPointF (real 20) 0) AltModifier screenPos t = None.
Proof. repeat split; vm_compute; solve [reflexivity | discriminate]. Qed.

End Examples.

(** ** Further properties of the code *)

(** *** Bounds *)



Lemma extend_grows (e : Extent) (q p : QPointF) :
  minx e <= maxx e -> miny e <= maxy e ->
  (within e p \/ p = q) ->
  within (extend e q) p /\ minx (extend e q) <= maxx (extend e q)
  /\ miny (extend e q) <= maxy (extend e q).
Proof.
  intros Hx Hy Hp. unfold within, extend in *.
  repeat case_decide; simpl; destruct Hp as [(? & ? & ? & ?) | ->];
    repeat split; to_Q; lra.
Qed.

Lemma extend_all (rest : list QPointF) (e : Extent) (p : QPointF) :
  minx e <= maxx e -> miny e <= maxy e ->
  (within e p \/ p ∈ rest) ->
  within (foldl extend e rest) p.
Proof.
  revert e. induction rest as [|q rest IH]; intros e Hx Hy Hp; simpl.
  - destruct Hp as [Hp | Hp]; [exact Hp | set_solver].
  - assert (Hcase : (within e p \/ p = q) \/ p ∈ rest).
    { destruct Hp as [Hp | Hp]; [by left; left|].
      apply elem_of_cons in Hp as [-> | Hp]; [by left; right | by right]. }
    destruct Hcase as [Hhere | Hlater].
    + destruct (extend_grows e q p Hx Hy Hhere) as (Hw & Hx' & Hy').
      apply IH; [exact Hx' | exact Hy' | by left].
    + assert (Hself : within e (mkPointF (minx e) (miny e)))
        by (unfold within; simpl; repeat split; to_Q; lra).
      destruct (extend_grows e q _ Hx Hy (or_introl Hself)) as (_ & Hx' & Hy').
      apply IH; [exact Hx' | exact Hy' | by right].
Qed.

(** X3. The pixel bounds of a polygon or a polyline hold every point of the
    polygon, each taken from the position of the object. *)
Theorem pixelBounds_contains (object : MapObject.t) (p : QPointF) :
  MapObject.shape object = MapObject.Polygon
  \/ MapObject.shape object = MapObject.Polyline ->
  p ∈ MapObject.polygon object ->
  inside (pixelBounds object) (padd p (MapObject.position object)).
Proof.
  intros Hshape Hp.
  assert (Hb : pixelBounds object
               = boundingRect (translated (MapObject.position object)
                                          (MapObject.polygon object)))
    by (unfold pixelBounds; destruct Hshape as [-> | ->]; reflexivity).
  rewrite Hb. clear Hb Hshape.
  assert (Hin : padd p (MapObject.position object)
                ∈ translated (MapObject.position object) (MapObject.polygon object))
    by (unfold translated; apply list_elem_of_fmap; eauto).
  destruct (translated _ _) as [|q rest]; [set_solver|].
  unfold boundingRect.
  assert (Hw : within (foldl extend (mkExtent (px q) (px q) (py q) (py q)) rest)
                      (padd p (MapObject.position object))).
  { apply extend_all; simpl; [to_Q; lra | to_Q; lra |].
    apply elem_of_cons in Hin as [-> | Hin]; [|by right].
    left. unfold within. simpl. repeat split; to_Q; lra. }
  destruct Hw as (H1 & H2 & H3 & H4).
  unfold inside. simpl. repeat split; to_Q; lra.
Qed.

Section MoreTheorems.
Context `{Libm} `{MapRenderer} `{SnapHelperApi} `{Platform} `{SceneQueries} `{MapSettings}.

(** *** Transforms and handles *)

(** X4. The transform of an object keeps the screen position of the object
    where it is, whatever the rotation: the object turns about its own
    position. *)
Theorem objectTransform_keeps_position (object : MapObject.t) :
  tMap (objectTransform object) (pixelToScreenCoords (MapObject.position object))
  = pixelToScreenCoords (MapObject.position object).
Proof.
  unfold objectTransform. case_decide; [apply rotateAt_center|].
  apply point_ext; simpl; ring.
Qed.

(** X5. Around a rectangle or an ellipse of size 0x0 the frame collapses:
    its corners and its centre are the screen position of the object, and so
    are the position and the resizing origin of every resize handle placed
    on it. *)
Theorem empty_object_frame (object : MapObject.t) (h : Handles) (anchor : AnchorPosition) :
  MapObject.shape object = MapObject.Rectangle
  \/ MapObject.shape object = MapObject.Ellipse ->
  MapObject.size object = mkSizeF 0 0 ->
  let screen := pixelToScreenCoords (MapObject.position object) in
  let placed := placeHandles (pixelSpaceFrame object) h in
  frameTopLeft (pixelSpaceFrame object) = screen /\
  frameTopRight (pixelSpaceFrame object) = screen /\
  frameBottomLeft (pixelSpaceFrame object) = screen /\
  frameBottomRight (pixelSpaceFrame object) = screen /\
  frameCenter (pixelSpaceFrame object) = screen /\
  handlePos (mResizeHandles placed anchor) = screen /\
  resizingOrigin (mResizeHandles placed anchor) = screen.
Proof.
  intros Hshape Hsize screen placed.
  assert (Hhalf : 0 / real 2 = 0) by (unfold Qcdiv; ring).
  assert (Hb : pixelBounds object
               = mkRectF (px (MapObject.position object)) (py (MapObject.position object)) 0 0).
  { unfold pixelBounds.
    assert (Ha : forall al, align (bounds object) al
                   = mkRectF (px (MapObject.position object))
                             (py (MapObject.position object)) 0 0).
    { intros al. unfold align, bounds, rectOf. rewrite Hsize.
      destruct al; apply rect_ext; simpl; rewrite ?Hhalf; ring. }
    destruct Hshape as [-> | ->]; apply Ha. }
  assert (Hcorner : forall p, p = MapObject.position object ->
            tMap (objectTransform object) (pixelToScreenCoords p) = screen).
  { intros p ->. subst screen. unfold objectTransform.
    case_decide; [apply rotateAt_center | apply point_ext; simpl; ring]. }
  assert (Hf : frameTopLeft (pixelSpaceFrame object) = screen /\
               frameTopRight (pixelSpaceFrame object) = screen /\
               frameBottomLeft (pixelSpaceFrame object) = screen /\
               frameBottomRight (pixelSpaceFrame object) = screen /\
               frameCenter (pixelSpaceFrame object) = screen).
  { unfold pixelSpaceFrame. rewrite Hb. cbn [frameTopLeft frameTopRight frameBottomLeft
      frameBottomRight frameCenter].
    repeat split; apply Hcorner; apply point_ext; simpl; rewrite ?Hhalf; ring. }
  destruct Hf as (Htl & Htr & Hbl & Hbr & Hc).
  assert (Hmid : midpoint screen screen = screen).
  { apply point_ext; unfold midpoint; simpl;
      apply Qc_is_canon; simpl; rewrite ?Qred_correct; field. }
  repeat split; try assumption.
  - subst placed. unfold placeHandles. cbn [mResizeHandles].
    destruct anchor; cbn [handlePos]; rewrite ?Htl, ?Htr, ?Hbl, ?Hbr; try done.
  - subst placed. unfold placeHandles. cbn [mResizeHandles].
    destruct anchor; cbn [resizingOrigin]; rewrite ?Htl, ?Htr, ?Hbl, ?Hbr; try done.
Qed.

(** X6. Once the handles are placed, the resizing origin of every resize
    handle is the position of the handle across the frame, and the rotate
    handles sit on the corner resize handles. *)
Theorem placeHandles_opposite (f : Frame) (h : Handles) (anchor : AnchorPosition) :
  let placed := placeHandles f h in
  resizingOrigin (mResizeHandles placed anchor)
  = handlePos (mResizeHandles placed (opposite anchor)) /\
  (resizingLimitHorizontal anchor = false -> resizingLimitVertical anchor = false ->
   mRotateHandles placed anchor = handlePos (mResizeHandles placed anchor)).
Proof. destruct anchor; split; try reflexivity; discriminate. Qed.

(** X7. After the visibility of the handles is updated, rotate and resize
    handles are never shown together; they are shown only with a selection
    and outside Moving, Rotating and Resizing; and the origin indicator is
    never shown while Moving nor without a selection. *)
Theorem updateHandleVisibility_exclusive (t : Tool) :
  let h := handles (updateHandleVisibility t) in
  (rotateHandlesVisible h && resizeHandlesVisible h = false) /\
  (rotateHandlesVisible h || resizeHandlesVisible h = true ->
     selectedObjectItems (scene t) <> ∅ /\
     (mAction t = NoAction \/ mAction t = Selecting)) /\
  (originVisible h = true ->
     selectedObjectItems (scene t) <> ∅ /\ mAction t <> Moving).
Proof.
  unfold updateHandleVisibility. cbn [handles set_handles rotateHandlesVisible
    resizeHandlesVisible originVisible].
  destruct (mMode t), (mAction t);
    destruct (bool_decide_reflect (selectedObjectItems (scene t) = ∅)) as [Hsel | Hsel];
    cbn; repeat split; intros; try discriminate; try congruence; auto.
Qed.

(** *** The snapshot *)

Lemma saveSelectionState_holds (t : Tool) (i : nat) (it : MapObjectItem.t) :
  i ∈ selectedObjectItems (scene t) -> items (scene t) !! i = Some it ->
  snapshotOf i it ∈ mMovingObjects (saveSelectionState t).
Proof.
  intros Hsel Hit. unfold saveSelectionState. cbn [mMovingObjects set_mMovingObjects].
  rewrite list_elem_of_omap. exists i. split; [by apply elem_of_elements|].
  by rewrite Hit.
Qed.

(** X8. The snapshot list holds one snapshot for each selected item of the
    scene, and nothing else: no item twice, and each snapshot with the
    position, size, polygon and rotation its item has at that time. *)
Theorem saveSelectionState_exact (t : Tool) (o : MovingObject) :
  let t' := saveSelectionState t in
  NoDup (map item (mMovingObjects t')) /\
  scene t' = scene t /\
  (o ∈ mMovingObjects t' <->
   exists it, item o ∈ selectedObjectItems (scene t) /\
     items (scene t) !! item o = Some it /\ o = snapshotOf (item o) it).
Proof.
  intros t'. split; [apply saveSelectionState_NoDup|]. split; [reflexivity|].
  subst t'. unfold saveSelectionState. cbn [mMovingObjects set_mMovingObjects].
  rewrite list_elem_of_omap. split.
  - intros (i & Hi & Hsnap). apply elem_of_elements in Hi.
    destruct (items (scene t) !! i) as [it|] eqn:Hit; simplify_eq/=.
    exists it. by repeat split.
  - intros (it & Hsel & Hit & Ho). exists (item o).
    split; [by apply elem_of_elements|]. rewrite Hit. simpl. by rewrite <- Ho.
Qed.

(** *** Moving *)

Lemma forEachItem_absorb (f g : MovingObject -> MapObjectItem.t -> MapObjectItem.t)
    (l : list MovingObject) (m : gmap nat MapObjectItem.t) :
  NoDup (map item l) ->
  (forall o o' x, f o (g o' x) = f o x) ->
  forEachItem f l (forEachItem g l m) = forEachItem f l m.
Proof.
  intros Hnd Habs. apply map_eq. intros i.
  destruct (decide (i ∈ map item l)) as [Hin | Hout].
  - apply list_elem_of_fmap in Hin as (o & -> & Ho).
    rewrite !forEachItem_lookup by done.
    destruct (m !! item o); simpl; [|reflexivity]. by rewrite Habs.
  - by rewrite !forEachItem_lookup_other.
Qed.

Lemma tool_ext (a b : Tool) :
  mMousePressed a = mMousePressed b -> mClickedObjectItem a = mClickedObjectItem b ->
  mClickedRotateHandle a = mClickedRotateHandle b ->
  mClickedResizeHandle a = mClickedResizeHandle b ->
  mResizingLimitHorizontal a = mResizingLimitHorizontal b ->
  mResizingLimitVertical a = mResizingLimitVertical b ->
  mMode a = mMode b -> mAction a = mAction b -> mStart a = mStart b ->
  mScreenStart a = mScreenStart b -> mOrigin a = mOrigin b ->
  mAlignPosition a = mAlignPosition b -> mMovingObjects a = mMovingObjects b ->
  handles a = handles b -> scene a = scene b -> undoStack a = undoStack b -> a = b.
Proof. destruct a, b; simpl; intros; subst; reflexivity. Qed.

(** X9. A drag that starts on an object of the scene, Alt up, always has a
    Moving gesture to start: the clicked object is selected and snapshot;
    and if it was not selected before, it becomes the whole selection and
    the only snapshot. *)
Theorem startMoving_clicked (modifiers0 : Z) (t : Tool) (clicked : nat)
    (it : MapObjectItem.t) :
  mClickedObjectItem t = Some clicked ->
  items (scene t) !! clicked = Some it ->
  testFlag modifiers0 AltModifier = false ->
  exists t', startMoving modifiers0 t = Some t' /\
    mAction t' = Moving /\
    items (scene t') = items (scene t) /\
    clicked ∈ selectedObjectItems (scene t') /\
    snapshotOf clicked it ∈ mMovingObjects t' /\
    (clicked ∈ selectedObjectItems (scene t) ->
       selectedObjectItems (scene t') = selectedObjectItems (scene t)) /\
    (clicked ∉ selectedObjectItems (scene t) ->
       selectedObjectItems (scene t') = {[ clicked ]} /\
       mMovingObjects t' = [snapshotOf clicked it]).
Proof.
  intros Hclicked Hit Halt. unfold startMoving. rewrite Hclicked, Halt. cbn [negb].
  set (t1 := if decide (clicked ∈ selectedObjectItems (scene t)) then t
             else setSelectedObjectItems {[ clicked ]} t).
  assert (Hitems : items (scene t1) = items (scene t)).
  { subst t1. case_decide; [reflexivity|]. unfold setSelectedObjectItems.
    destruct (updateHandles_frame (set_scene (setSelected {[ clicked ]} (scene t)) t))
      as (_ & _ & -> & _). reflexivity. }
  assert (Hsel : clicked ∈ selectedObjectItems (scene t1)).
  { subst t1. case_decide; [assumption|]. unfold setSelectedObjectItems.
    destruct (updateHandles_frame (set_scene (setSelected {[ clicked ]} (scene t)) t))
      as (_ & _ & -> & _). cbn. set_solver. }
  assert (Hsnap : snapshotOf clicked it ∈ mMovingObjects (saveSelectionState t1)).
  { apply saveSelectionState_holds; [exact Hsel | by rewrite Hitems]. }
  assert (Hkeep : clicked ∈ selectedObjectItems (scene t) ->
                  selectedObjectItems (scene t1) = selectedObjectItems (scene t))
    by (intros Hin; subst t1; by rewrite decide_True).
  assert (Hnew : clicked ∉ selectedObjectItems (scene t) ->
                 selectedObjectItems (scene t1) = {[ clicked ]}).
  { intros Hout. subst t1. rewrite decide_False by done.
    unfold setSelectedObjectItems.
    destruct (updateHandles_frame (set_scene (setSelected {[ clicked ]} (scene t)) t))
      as (_ & _ & -> & _). reflexivity. }
  clearbody t1. cbn [mMovingObjects set_mAction].
  remember (mMovingObjects (saveSelectionState t1)) as l eqn:Hlist.
  destruct l as [|first rest]; [set_solver|].
  cbn [head mbind option_bind]. eexists. split; [reflexivity|].
  cbn [mAction updateHandleVisibility set_handles set_mAlignPosition set_mAction
       scene mMovingObjects].
  split; [reflexivity|]. split; [exact Hitems|]. split; [exact Hsel|].
  split; [rewrite <- Hlist; exact Hsnap|]. split; [exact Hkeep|].
  intros Hout. split; [by apply Hnew|].
  rewrite <- Hlist. rewrite Hlist.
  unfold saveSelectionState. cbn [mMovingObjects set_mMovingObjects].
  rewrite (Hnew Hout), elements_singleton, Hitems. cbn. by rewrite Hit.
Qed.

Lemma minCorner_fold (l : list MovingObject) (a : QPointF) :
  let r := foldl minCorner a l in
  (px r <= px a /\ py r <= py a) /\
  (forall o, o ∈ l -> px r <= px (oldPosition o) /\ py r <= py (oldPosition o)) /\
  (px r = px a \/ exists o, o ∈ l /\ px r = px (oldPosition o)) /\
  (py r = py a \/ exists o, o ∈ l /\ py r = py (oldPosition o)).
Proof.
  revert a. induction l as [|o l IH]; intros a; simpl.
  - repeat split; try apply Qcle_refl; try (by left); set_solver.
  - destruct (IH (minCorner a o)) as ((Hx & Hy) & Hall & Hax & Hay).
    assert (Hstep : (px (minCorner a o) <= px a /\ py (minCorner a o) <= py a) /\
                    (px (minCorner a o) <= px (oldPosition o)
                     /\ py (minCorner a o) <= py (oldPosition o)) /\
                    (px (minCorner a o) = px a \/ px (minCorner a o) = px (oldPosition o)) /\
                    (py (minCorner a o) = py a \/ py (minCorner a o) = py (oldPosition o))).
    { unfold minCorner. repeat case_decide; simpl in *; repeat split;
        try (by left); try (by right); to_Q; lra. }
    destruct Hstep as ((Hsx & Hsy) & (Hox & Hoy) & Hex & Hey).
    split; [split; eapply Qcle_trans; eauto|]. split.
    + intros o' Ho'. apply elem_of_cons in Ho' as [-> | Ho'];
        [split; eapply Qcle_trans; eauto | by apply Hall].
    + split.
      * destruct Hax as [Hax | (o' & Ho' & Hax)].
        -- destruct Hex as [Hex | Hex]; [left; congruence|].
           right. exists o. split; [set_solver | congruence].
        -- right. exists o'. split; [set_solver | exact Hax].
      * destruct Hay as [Hay | (o' & Ho' & Hay)].
        -- destruct Hey as [Hey | Hey]; [left; congruence|].
           right. exists o. split; [set_solver | congruence].
        -- right. exists o'. split; [set_solver | exact Hay].
Qed.

(** X10. The alignment position a Moving gesture starts with is the top
    left of the old positions: no snapshot lies left of it or above it, one
    snapshot has its x and one has its y. *)
Theorem startMoving_alignPosition (modifiers0 : Z) (t t' : Tool) :
  startMoving modifiers0 t = Some t' ->
  (forall o, o ∈ mMovingObjects t' ->
     px (mAlignPosition t') <= px (oldPosition o) /\
     py (mAlignPosition t') <= py (oldPosition o)) /\
  (exists o, o ∈ mMovingObjects t' /\ px (mAlignPosition t') = px (oldPosition o)) /\
  (exists o, o ∈ mMovingObjects t' /\ py (mAlignPosition t') = py (oldPosition o)).
Proof.
  unfold startMoving.
  set (t1 := match mClickedObjectItem t with Some _ => _ | None => _ end).
  cbn [mMovingObjects set_mAction].
  destruct (mMovingObjects (saveSelectionState t1)) as [|first rest] eqn:Hlist;
    [discriminate|].
  cbn [head mbind option_bind]. intros [= <-].
  cbn [mAlignPosition updateHandleVisibility set_handles set_mAlignPosition
       mMovingObjects set_mAction].
  rewrite Hlist.
  destruct (minCorner_fold (first :: rest) (oldPosition first))
    as (_ & Hall & Hax & Hay).
  split; [exact Hall|]. split.
  - destruct Hax as [Hax | Hax]; [|exact Hax]. exists first. split; [set_solver | exact Hax].
  - destruct Hay as [Hay | Hay]; [|exact Hay]. exists first. split; [set_solver | exact Hay].
Qed.

Lemma updateMovingItems_item (pos : QPointF) (modifiers0 : Z) (t : Tool)
    (o : MovingObject) (it : MapObjectItem.t) :
  NoDup (map item (mMovingObjects t)) ->
  o ∈ mMovingObjects t -> items (scene t) !! item o = Some it ->
  let diff := snapToGrid (psub pos (mStart t)) modifiers0 t in
  exists it', items (scene (updateMovingItems pos modifiers0 t)) !! item o = Some it' /\
    MapObjectItem.pos it' = padd (oldItemPosition o) diff /\
    MapObject.position (MapObjectItem.mapObject it')
      = screenToPixelCoords (padd (oldItemPosition o) diff).
Proof.
  intros Hnd Ho Hit diff. unfold updateMovingItems.
  cbn [scene set_scene items setItems]. rewrite forEachItem_lookup, Hit by done.
  eexists. split; [reflexivity|]. fold diff. unfold moveObject.
  cbn [MapObjectItem.mapObject MapObjectItem.onObject MapObjectItem.setPos
       MapObject.drawOrder MapObject.setPosition].
  case_decide; cbn; split; reflexivity.
Qed.

(** X11. A Moving update puts every snapshot item at its old item position
    plus one and the same displacement, the one [snapToGrid] returns, sets
    the pixel position from that screen position, restacks the items of a
    top-down layer by their new y, and leaves the items outside the snapshot
    list alone. *)
Theorem updateMovingItems_same_shift (pos : QPointF) (modifiers0 : Z) (t : Tool) :
  NoDup (map item (mMovingObjects t)) ->
  let t' := updateMovingItems pos modifiers0 t in
  let diff := snapToGrid (psub pos (mStart t)) modifiers0 t in
  (forall o it, o ∈ mMovingObjects t -> items (scene t) !! item o = Some it ->
     exists it', items (scene t') !! item o = Some it' /\
       MapObjectItem.pos it' = padd (oldItemPosition o) diff /\
       MapObject.position (MapObjectItem.mapObject it')
         = screenToPixelCoords (padd (oldItemPosition o) diff) /\
       (MapObject.drawOrder (MapObjectItem.mapObject it) = TopDownOrder ->
          MapObjectItem.zValue it' = py (oldItemPosition o) + py diff) /\
       MapObject.size (MapObjectItem.mapObject it')
         = MapObject.size (MapObjectItem.mapObject it)) /\
  (forall i, i ∉ map item (mMovingObjects t) ->
     items (scene t') !! i = items (scene t) !! i).
Proof.
  intros Hnd t' diff. split.
  - intros o it Ho Hit. subst t'. unfold updateMovingItems.
    cbn [scene set_scene items setItems]. rewrite forEachItem_lookup, Hit by done.
    eexists. split; [reflexivity|]. fold diff. unfold moveObject.
    cbn [MapObjectItem.mapObject MapObjectItem.onObject MapObjectItem.setPos
         MapObject.drawOrder MapObject.setPosition].
    case_decide; cbn; repeat split; try reflexivity; congruence.
  - intros i Hi. subst t'. unfold updateMovingItems.
    cbn [scene set_scene items setItems]. by apply forEachItem_lookup_other.
Qed.

Lemma moveObject_absorb (d d' : QPointF) (o o' : MovingObject) (x : MapObjectItem.t) :
  moveObject d o (moveObject d' o' x) = moveObject d o x.
Proof.
  destruct x as [p r z [position size shape polygon rotation alignment cell order]].
  unfold moveObject. cbn.
  destruct (decide (order = TopDownOrder)) as [Heq | Hne]; cbn.
  - by rewrite decide_True.
  - by rewrite decide_False.
Qed.

Lemma rotateObject_absorb (c c' : QPointF) (a a' : qreal) (o o' : MovingObject)
    (x : MapObjectItem.t) :
  rotateObject c a o (rotateObject c' a' o' x) = rotateObject c a o x.
Proof. reflexivity. Qed.

(** X12. The live updates of a drag do not add up: a Moving update after
    any other Moving update, and a Rotating update after any other Rotating
    update, give the state the last update alone gives, since each one
    starts from the snapshots. *)
Theorem updates_do_not_accumulate (pos pos' : QPointF) (modifiers0 modifiers' : Z)
    (t : Tool) :
  NoDup (map item (mMovingObjects t)) ->
  updateMovingItems pos modifiers0 (updateMovingItems pos' modifiers' t)
  = updateMovingItems pos modifiers0 t /\
  updateRotatingItems pos modifiers0 (updateRotatingItems pos' modifiers' t)
  = updateRotatingItems pos modifiers0 t.
Proof.
  intros Hnd. split.
  - apply tool_ext; try reflexivity.
    unfold updateMovingItems. cbn [scene set_scene items setItems mMovingObjects mStart].
    unfold setItems. cbn. f_equal.
    apply forEachItem_absorb; [exact Hnd|]. intros; apply moveObject_absorb.
  - apply tool_ext; try reflexivity.
    unfold updateRotatingItems. cbn [scene set_scene items setItems mMovingObjects mOrigin].
    unfold setItems. cbn. f_equal.
    apply forEachItem_absorb; [exact Hnd|]. intros; apply rotateObject_absorb.
Qed.

(** X13. With snapping off, a Moving update with the pointer back on the
    press point puts every snapshot item back on its old item position and,
    for a renderer whose two conversions are inverse and an item that was on
    the screen position of its object, every object back on its old
    position. *)
Theorem updateMovingItems_back_on_start (modifiers0 : Z) (t : Tool) :
  snaps (newSnapHelper modifiers0) = false ->
  NoDup (map item (mMovingObjects t)) ->
  (forall p, screenToPixelCoords (pixelToScreenCoords p) = p) ->
  let t' := updateMovingItems (mStart t) modifiers0 t in
  forall o it, o ∈ mMovingObjects t -> items (scene t) !! item o = Some it ->
    oldItemPosition o = pixelToScreenCoords (oldPosition o) ->
    exists it', items (scene t') !! item o = Some it' /\
      MapObjectItem.pos it' = oldItemPosition o /\
      MapObject.position (MapObjectItem.mapObject it') = oldPosition o.
Proof.
  intros Hsnap Hnd Hround t' o it Ho Hit Hitem.
  destruct (updateMovingItems_item (mStart t) modifiers0 t o it Hnd Ho Hit)
    as (it' & Hit' & Hpos & Hposition).
  assert (Hdiff : padd (oldItemPosition o)
                    (snapToGrid (psub (mStart t) (mStart t)) modifiers0 t)
                  = oldItemPosition o).
  { unfold snapToGrid. rewrite Hsnap. apply point_ext; simpl; ring. }
  rewrite Hdiff in Hpos, Hposition.
  exists it'. split; [exact Hit'|]. split; [exact Hpos|].
  rewrite Hposition, Hitem. apply Hround.
Qed.

(** *** Undoing a finished gesture *)







(** *** Rotating and resizing *)

(** X16. A Rotating update turns every snapshot item by one and the same
    angle, and when the sine and the cosine of that angle have squares that
    add up to 1, it keeps every item at its distance from the origin of the
    rotation. *)
Theorem updateRotatingItems_rigid (pos : QPointF) (modifiers0 : Z) (t : Tool) :
  NoDup (map item (mMovingObjects t)) ->
  let angle := rotationAngle pos modifiers0 t in
  std_sin angle * std_sin angle + std_cos angle * std_cos angle = 1 ->
  let t' := updateRotatingItems pos modifiers0 t in
  forall o it, o ∈ mMovingObjects t -> items (scene t) !! item o = Some it ->
    exists it', items (scene t') !! item o = Some it' /\
      MapObjectItem.rotation it' - oldRotation o = angle * real 180 / M_PI /\
      (px (MapObjectItem.pos it') - px (mOrigin t)) * (px (MapObjectItem.pos it') - px (mOrigin t))
      + (py (MapObjectItem.pos it') - py (mOrigin t)) * (py (MapObjectItem.pos it') - py (mOrigin t))
      = (px (oldItemPosition o) - px (mOrigin t)) * (px (oldItemPosition o) - px (mOrigin t))
        + (py (oldItemPosition o) - py (mOrigin t)) * (py (oldItemPosition o) - py (mOrigin t)).
Proof.
  intros Hnd angle Hunit t' o it Ho Hit. subst t'. unfold updateRotatingItems.
  cbn [scene set_scene items setItems]. rewrite forEachItem_lookup, Hit by done.
  eexists. split; [reflexivity|]. fold angle. unfold rotateObject.
  cbn [MapObjectItem.rotation MapObjectItem.pos MapObjectItem.setObjectRotation
       MapObjectItem.onObject MapObjectItem.setPos px py padd psub].
  generalize dependent (std_sin angle). generalize dependent (std_cos angle).
  intros cs sn Hunit. split; [ring|].
  set (x := px (oldItemPosition o) - px (mOrigin t)).
  set (y := py (oldItemPosition o) - py (mOrigin t)).
  transitivity ((x * x + y * y) * (sn * sn + cs * cs)); [ring|].
  rewrite Hunit. ring.
Qed.

(** X17. A Resizing update of several objects with the snapped pointer on
    the start of the gesture changes nothing, as long as the start differs
    from the origin along each axis whose ratio is used: every snapshot item
    is on its old item position with its old size. *)
Theorem updateResizingItems_on_start (pos : QPointF) (modifiers0 : Z) (t : Tool)
    (anchor : AnchorPosition) :
  mClickedResizeHandle t = Some anchor ->
  (2 <= length (mMovingObjects t))%nat ->
  NoDup (map item (mMovingObjects t)) ->
  snappedScreenPos pos modifiers0 = mStart t ->
  let pivot := activeOrigin modifiers0 anchor t in
  (mResizingLimitHorizontal t = false -> px (mStart t) <> px pivot) ->
  (mResizingLimitHorizontal t = true \/ mResizingLimitVertical t = false ->
     py (mStart t) <> py pivot) ->
  exists t', updateResizingItems pos modifiers0 t = Some t' /\
    forall o it, o ∈ mMovingObjects t -> items (scene t) !! item o = Some it ->
      exists it', items (scene t') !! item o = Some it' /\
        MapObjectItem.pos it' = oldItemPosition o /\
        MapObject.size (MapObjectItem.mapObject it') = oldSize o.
Proof.
  intros Hclicked Hlen Hnd Hsnapped pivot Hx Hy.
  destruct (updateResizingItems_several pos modifiers0 t anchor Hclicked Hlen Hnd)
    as (t' & Hrun & Hall).
  exists t'. split; [exact Hrun|].
  assert (Hone : forall d, d <> 0 -> qMax (real 0.01) (d / d) = 1).
  { intros d Hd. replace (d / d) with 1 by (field; exact Hd).
    unfold qMax. rewrite decide_True; [reflexivity|]. to_Q. lra. }
  assert (Hscale : resizeScale (mResizingLimitHorizontal t) (mResizingLimitVertical t)
                     (psub (snappedScreenPos pos modifiers0) pivot)
                     (psub (mStart t) pivot) = 1).
  { rewrite Hsnapped. unfold resizeScale. cbn [px py psub].
    assert (Hsub : forall a b : qreal, a <> b -> a - b <> 0).
    { intros a b Hab Hz. apply Hab.
      replace a with (a - b + b) by ring. rewrite Hz. ring. }
    destruct (mResizingLimitHorizontal t).
    - apply Hone, Hsub, Hy. by left.
    - destruct (mResizingLimitVertical t).
      + apply Hone, Hsub, Hx. reflexivity.
      + rewrite !Hone; [| apply Hsub, Hy; by right | apply Hsub, Hx; reflexivity].
        unfold qMin. by case_decide. }
  intros o it Ho Hit. destruct (Hall o it Ho Hit) as (it' & Hit' & Hpx & Hpy & Hsize & _).
  fold pivot in Hpx, Hpy, Hsize. rewrite Hscale in Hpx, Hpy, Hsize.
  exists it'. split; [exact Hit'|]. split.
  - apply point_ext.
    + replace (px (MapObjectItem.pos it'))
        with (px (MapObjectItem.pos it') - px pivot + px pivot) by ring.
      rewrite Hpx. ring.
    + replace (py (MapObjectItem.pos it'))
        with (py (MapObjectItem.pos it') - py pivot + py pivot) by ring.
      rewrite Hpy. ring.
  - rewrite Hsize. destruct (oldSize o) as [w h]. cbn. f_equal; ring.
Qed.

(** X18. The two factors of a resize of one object are never under 0.01,
    with or without axis locks and aspect preservation: no axis collapses or
    flips. *)
Theorem scalingFactorOf_floor (limitHorizontal limitVertical preserveAspect : bool)
    (relPos startDiff : QPointF) :
  let factor := scalingFactorOf limitHorizontal limitVertical preserveAspect
                                relPos startDiff in
  real 0.01 <= wd factor /\ real 0.01 <= ht factor.
Proof.
  assert (Hone : real 0.01 <= 1) by (to_Q; lra).
  unfold scalingFactorOf.
  destruct limitHorizontal, limitVertical, preserveAspect; cbn [wd ht];
    split; try exact Hone; try apply qMax_ge_l; apply qMin_glb; apply qMax_ge_l.
Qed.




(** *** Removal, and a whole Moving gesture *)

(** X20. The rollback on a removal writes only the items of snapshots whose
    object is not removed: the items of removed objects and the items
    outside the snapshot list are what they were, and so are the undo stack
    and the selection. *)
Theorem objectsRemoved_touches_only_remaining (objects : list nat) (t : Tool) (i : nat) :
  NoDup (map item (mMovingObjects t)) ->
  i ∈ objects \/ i ∉ map item (mMovingObjects t) ->
  let t' := objectsRemoved objects t in
  items (scene t') !! i = items (scene t) !! i /\
  undoStack t' = undoStack t /\
  selectedObjectItems (scene t') = selectedObjectItems (scene t).
Proof.
  intros Hnd Hi. unfold objectsRemoved. case_decide; [done|].
  cbn [scene set_scene set_mMovingObjects items setItems undoStack selectedObjectItems].
  split; [|done].
  destruct (decide (i ∈ map item (mMovingObjects t))) as [Hin | Hout].
  - destruct Hi as [Hi | Hi]; [|done].
    apply list_elem_of_fmap in Hin as (o & -> & Ho).
    rewrite forEachItem_lookup by done.
    destruct (items (scene t) !! item o) as [it|]; [|reflexivity].
    cbn [fmap option_fmap option_map]. unfold restoreObject.
    by rewrite decide_True.
  - by apply forEachItem_lookup_other.
Qed.


(** *** Presses, releases and keys *)

Lemma updateHandles_only_handles (t : Tool) :
  exists h, updateHandles t = set_handles h t.
Proof.
  unfold updateHandles, updateHandleVisibility.
  case_decide; [exists (handles t); by destruct t|].
  destruct (negb _); eexists; reflexivity.
Qed.

Lemma setSelectedObjectItems_only (sel : gset nat) (t : Tool) :
  exists h, setSelectedObjectItems sel t
            = set_handles h (set_scene (setSelected sel (scene t)) t).
Proof. unfold setSelectedObjectItems. apply updateHandles_only_handles. Qed.

Lemma setMode_only (mode : Mode) (t : Tool) :
  exists h, setMode mode t = set_handles h (set_mMode mode t).
Proof.
  unfold setMode. case_decide as Hmode.
  - apply updateHandles_only_handles.
  - exists (handles t).
    assert (Heq : mMode t = mode) by (by destruct (decide (mMode t = mode))).
    destruct t. cbn in *. by subst.
Qed.

Lemma finish_action (pos : QPointF) (t : Tool) :
  mAction (finishMoving pos t) = NoAction /\
  mAction (finishRotating pos t) = NoAction /\
  mAction (finishResizing pos t) = NoAction.
Proof.
  unfold finishMoving, finishRotating, finishResizing.
  destruct (updateHandles_frame (set_mAction NoAction t)) as (Hact & _).
  remember (updateHandles (set_mAction NoAction t)) as t1 eqn:Ht1. clear Ht1.
  repeat split; by case_decide.
Qed.

Lemma mouseReleased_rest (event : MouseEvent) (t : Tool) :
  button event = LeftButton ->
  mAction (mouseReleased event t) = NoAction /\
  mMousePressed (mouseReleased event t) = false /\
  mClickedObjectItem (mouseReleased event t) = None /\
  mClickedRotateHandle (mouseReleased event t) = None /\
  mClickedResizeHandle (mouseReleased event t) = None.
Proof.
  intros Hbutton. unfold mouseReleased.
  rewrite decide_False by (intros Hne; by apply Hne).
  cbn [mAction mMousePressed mClickedObjectItem mClickedRotateHandle
       mClickedResizeHandle set_press].
  repeat split.
  destruct (mAction t) eqn:Hact.
  - destruct (_ || _); [exact Hact|].
    destruct (mClickedObjectItem t) as [clicked|].
    + destruct (negb _).
      * case_decide;
          match goal with
          | |- mAction (setSelectedObjectItems ?s ?x) = _ =>
              destruct (setSelectedObjectItems_only s x) as [h ->]
          end; exact Hact.
      * case_decide;
          match goal with
          | |- mAction (setSelectedObjectItems ?s (setMode ?m ?x)) = _ =>
              destruct (setSelectedObjectItems_only s (setMode m x)) as [h ->];
              destruct (setMode_only m x) as [h' ->]
          end; exact Hact.
    + destruct (negb _); [|exact Hact].
      destruct (setSelectedObjectItems_only ∅ t) as [h ->]. exact Hact.
  - reflexivity.
  - apply finish_action.
  - apply finish_action.
  - apply finish_action.
Qed.

(** X22. Whatever the tool was doing, a release of the left button leaves
    it at rest: no action is active, the pointer is not pressed, and no
    clicked object or handle is remembered.  A release of another button
    changes nothing. *)
Theorem mouseReleased_at_rest (event : MouseEvent) (t : Tool) :
  let t' := mouseReleased event t in
  (button event = LeftButton ->
     mAction t' = NoAction /\ mMousePressed t' = false /\
     mClickedObjectItem t' = None /\ mClickedRotateHandle t' = None /\
     mClickedResizeHandle t' = None) /\
  (button event <> LeftButton -> t' = t).
Proof.
  split; [apply mouseReleased_rest|].
  intros Hbutton. unfold mouseReleased. by rewrite decide_True.
Qed.

(** X23. A click (a release with no action active and no handle clicked)
    on an object, Shift and Control up: on a selected object it switches the
    mode between Resize and Rotate and keeps the selection; on an object
    that is not selected it makes that object the selection and the mode
    Resize.  The items and the undo stack stay as they are. *)
Theorem click_on_object (event : MouseEvent) (t : Tool) (clicked : nat) :
  button event = LeftButton ->
  mAction t = NoAction ->
  mClickedRotateHandle t = None -> mClickedResizeHandle t = None ->
  mClickedObjectItem t = Some clicked ->
  Z.land (modifiers event) (Z.lor ShiftModifier ControlModifier) = 0%Z ->
  let t' := mouseReleased event t in
  items (scene t') = items (scene t) /\ undoStack t' = undoStack t /\
  (clicked ∈ selectedObjectItems (scene t) ->
     selectedObjectItems (scene t') = selectedObjectItems (scene t) /\
     mMode t' = (if decide (mMode t = Resize) then Rotate else Resize)) /\
  (clicked ∉ selectedObjectItems (scene t) ->
     selectedObjectItems (scene t') = {[ clicked ]} /\ mMode t' = Resize).
Proof.
  intros Hbutton Hact Hrot Hres Hclicked Hmods. unfold mouseReleased.
  rewrite decide_False by (intros Hne; by apply Hne).
  rewrite Hact, Hrot, Hres, Hclicked, Hmods.
  rewrite !bool_decide_eq_false_2 by (by intros [? ?]).
  cbn [orb negb Z.eqb].
  case_decide as Hin;
    match goal with
    | |- context [setSelectedObjectItems ?s (setMode ?m t)] =>
        destruct (setSelectedObjectItems_only s (setMode m t)) as [h ->];
        destruct (setMode_only m t) as [h' ->]
    end; cbn; repeat split; intros; done.
Qed.

(** X24. A click on an object with Shift or Control held switches that one
    object in or out of the selection and leaves every other object, the
    mode, the items and the undo stack as they are. *)
Theorem modifier_click_toggles (event : MouseEvent) (t : Tool) (clicked : nat) :
  button event = LeftButton ->
  mAction t = NoAction ->
  mClickedRotateHandle t = None -> mClickedResizeHandle t = None ->
  mClickedObjectItem t = Some clicked ->
  Z.land (modifiers event) (Z.lor ShiftModifier ControlModifier) <> 0%Z ->
  let t' := mouseReleased event t in
  (clicked ∈ selectedObjectItems (scene t') <-> clicked ∉ selectedObjectItems (scene t)) /\
  (forall i, i <> clicked ->
     (i ∈ selectedObjectItems (scene t') <-> i ∈ selectedObjectItems (scene t))) /\
  mMode t' = mMode t /\ items (scene t') = items (scene t) /\
  undoStack t' = undoStack t.
Proof.
  intros Hbutton Hact Hrot Hres Hclicked Hmods. unfold mouseReleased.
  rewrite decide_False by (intros Hne; by apply Hne).
  rewrite Hact, Hrot, Hres, Hclicked.
  rewrite !bool_decide_eq_false_2 by (by intros [? ?]).
  apply Z.eqb_neq in Hmods. rewrite Hmods. cbn [orb negb].
  case_decide as Hin;
    match goal with
    | |- context [setSelectedObjectItems ?s t] =>
        destruct (setSelectedObjectItems_only s t) as [h ->]
    end; cbn; repeat split; intros; set_solver.
Qed.

(** X25. A click on the empty canvas clears the selection unless Shift is
    held, in which case the selection stays; a click on a handle changes
    neither the selection nor the mode. *)
Theorem click_elsewhere (event : MouseEvent) (t : Tool) :
  button event = LeftButton ->
  mAction t = NoAction ->
  let t' := mouseReleased event t in
  (mClickedRotateHandle t = None -> mClickedResizeHandle t = None ->
   mClickedObjectItem t = None ->
     selectedObjectItems (scene t')
     = (if testFlag (modifiers event) ShiftModifier
        then selectedObjectItems (scene t) else ∅) /\
     mMode t' = mMode t) /\
  (is_Some (mClickedRotateHandle t) \/ is_Some (mClickedResizeHandle t) ->
     scene t' = scene t /\ mMode t' = mMode t /\ handles t' = handles t).
Proof.
  intros Hbutton Hact. unfold mouseReleased.
  rewrite decide_False by (intros Hne; by apply Hne).
  rewrite Hact. split.
  - intros -> -> ->. rewrite !bool_decide_eq_false_2 by (by intros [? ?]).
    cbn [orb]. destruct (testFlag _ _); cbn [negb]; [done|].
    destruct (setSelectedObjectItems_only ∅ t) as [h ->]. done.
  - intros Hhandle.
    assert (Hor : bool_decide (is_Some (mClickedRotateHandle t))
                  || bool_decide (is_Some (mClickedResizeHandle t)) = true).
    { destruct Hhandle as [Hh | Hh]; rewrite (bool_decide_eq_true_2 _ Hh);
        [reflexivity | apply orb_true_r]. }
    rewrite Hor. done.
Qed.

(** X26. A press while an action is active changes nothing.  A left press
    with no action active records the press point; it remembers at most one
    handle; and it asks for the object under the pointer only when no handle
    was hit, so that after a release, which forgets the clicked object, a
    press on a handle remembers no object. *)
Theorem mousePressed_records (event : MouseEvent) (t : Tool) :
  let t' := mousePressed event t in
  (mAction t <> NoAction -> t' = t) /\
  (mAction t = NoAction -> button event = LeftButton ->
     mMousePressed t' = true /\ mStart t' = scenePos event /\
     mScreenStart t' = screenPos event /\ mAction t' = NoAction /\
     scene t' = scene t /\ undoStack t' = undoStack t /\
     (mClickedRotateHandle t' = None \/ mClickedResizeHandle t' = None) /\
     (is_Some (mClickedRotateHandle t') \/ is_Some (mClickedResizeHandle t') ->
        mClickedObjectItem t' = mClickedObjectItem t)).
Proof.
  unfold mousePressed. split.
  - intros Hact. by rewrite decide_True.
  - intros Hact Hbutton. rewrite decide_False by (intros Hne; by apply Hne).
    rewrite Hbutton.
    destruct (if hasView event then _ else _); cbn;
      repeat split; try (by left); try (by right); try done;
      intros [[? ?] | [? ?]]; done.
Qed.

(** X27. A drag that starts with a press on a resize handle right after a
    release, Alt up, starts a Resizing gesture as soon as it reaches the
    drag threshold: the release has cleared the clicked object, so the
    Moving case does not apply. *)
Theorem handle_drag_resizes (release press : MouseEvent) (pos : QPointF)
    (dragModifiers : Z) (cursor : QPoint) (t : Tool) (anchor : AnchorPosition) :
  button release = LeftButton -> button press = LeftButton ->
  mClickedResizeHandle (mousePressed press (mouseReleased release t)) = Some anchor ->
  testFlag dragModifiers AltModifier = false ->
  (startDragDistance <= manhattanLength (isub (screenPos press) cursor))%Z ->
  exists t', mouseMoved pos dragModifiers cursor
               (mousePressed press (mouseReleased release t)) = Some t' /\
    mAction t' = Resizing.
Proof.
  intros Hrelease Hpress Hhit Halt Hdrag.
  destruct (mouseReleased_rest release t Hrelease) as (Hact & _ & Hobj & _).
  remember (mouseReleased release t) as t1 eqn:Ht1. clear Ht1.
  assert (Hp : let t2 := mousePressed press t1 in
               mAction t2 = NoAction /\ mMousePressed t2 = true /\
               mScreenStart t2 = screenPos press /\ mClickedObjectItem t2 = None /\
               mClickedRotateHandle t2 = None).
  { revert Hhit. unfold mousePressed. rewrite decide_False by (intros Hne; by apply Hne).
    rewrite Hpress.
    destruct (if hasView press then _ else _); cbn; intros Hhit; try discriminate.
    by repeat split. }
  destruct Hp as (Hact2 & Hpressed2 & Hscreen2 & Hobj2 & Hrot2).
  remember (mousePressed press t1) as t2 eqn:Ht2. clear Ht2.
  destruct (mouseMoved_dispatch pos dragModifiers cursor t2 Hact2 Hpressed2)
    as (t' & Hrun & Haction).
  - by rewrite Hscreen2.
  - rewrite Hobj2, Halt. rewrite bool_decide_eq_false_2 by (by intros [? ?]).
    discriminate.
  - exists t'. split; [exact Hrun|]. rewrite Haction.
    rewrite Hobj2, Halt, Hrot2, Hhit.
    rewrite !bool_decide_eq_false_2 by (by intros [? ?]).
    by rewrite bool_decide_eq_true_2 by (by eexists).
Qed.



(** X28. A key press is ignored, and changes nothing, while an action is
    active; and so is an arrow key when nothing is selected or Control is
    held. *)
Theorem keyPressed_ignored (event : KeyEvent) (t : Tool) :
  mAction t <> NoAction
  \/ (key event <> Key_Other
      /\ (selectedObjectItems (scene t) = ∅
          \/ testFlag (keyModifiers event) ControlModifier = true)) ->
  keyPressed event t = (true, t).
Proof.
  intros Hcase. unfold keyPressed.
  destruct (decide (mAction t <> NoAction)) as [Hact | Hact]; [reflexivity|].
  destruct Hcase as [Hcase | (Hkey & Hcase)]; [done|].
  destruct (key event); cbn [arrowStep]; try done;
    (destruct Hcase as [-> | ->];
     [rewrite elements_empty; rewrite (bool_decide_eq_true_2 ([] = [])) by done
     | ]; by rewrite ?orb_true_r).
Qed.



End MoreTheorems.

(** ** Examples of the further properties *)

Section MoreExamples.
#[local] Existing Instance orthogonalRenderer.
#[local] Existing Instance pixelSnapHelper.
#[local] Existing Instance axisLibm.
#[local] Existing Instance desktop.
#[local] Existing Instance boxQueries.
#[local] Existing Instance squareTiles.

Ltac qc_eq := apply Qc_is_canon; vm_compute; reflexivity.
Ltac qc_neq := let Heq := fresh in
  intros Heq; apply (f_equal this) in Heq; vm_compute in Heq; discriminate.
Ltac by_decision := apply (bool_decide_unpack _); vm_compute; reflexivity.


Lemma pixelBounds_contains_witness :
  inside (pixelBounds triangle)
         (padd (mkPointF (real 5) (real 8)) (mkPointF (real 2) (real 3))).
Proof.
  apply (pixelBounds_contains triangle); [left; reflexivity | by_decision].
Defined.

Lemma empty_object_frame_witness :
  resizingOrigin (mResizeHandles (placeHandles (pixelSpaceFrame emptyRectangle) noHandles)
                                 BottomRightAnchor)
  = mkPointF (real 5) (real 5).
Proof.
  destruct (empty_object_frame emptyRectangle noHandles BottomRightAnchor)
    as (_ & _ & _ & _ & _ & _ & Horigin); [left; reflexivity | reflexivity |].
  exact Horigin.
Defined.

Lemma startMoving_clicked_witness :
  exists t', startMoving 0 pressedOnFirst = Some t' /\ mAction t' = Moving.
Proof.
  destruct (startMoving_clicked 0 pressedOnFirst 1 firstSquare)
    as (t' & Hrun & Hact & _); [reflexivity | reflexivity | reflexivity |].
  exists t'. split; [exact Hrun | exact Hact].
Defined.

Lemma startMoving_runs : startMoving 0 pressedOnFirst = Some movingTwo.
Proof. vm_compute. reflexivity. Qed.

Lemma startMoving_alignPosition_witness :
  exists o, o ∈ mMovingObjects movingTwo /\
    px (mAlignPosition movingTwo) = px (oldPosition o).
Proof.
  destruct (startMoving_alignPosition 0 pressedOnFirst movingTwo startMoving_runs)
    as (_ & Hx & _). exact Hx.
Defined.

Lemma updateMovingItems_same_shift_witness :
  items (scene (updateMovingItems (mkPointF (real 25) (real 15)) 0 movingTwo)) !! 7%nat
  = items (scene movingTwo) !! 7%nat.
Proof.
  destruct (updateMovingItems_same_shift (mkPointF (real 25) (real 15)) 0 movingTwo)
    as [_ Hother]; [by_decision|].
  apply Hother. by_decision.
Defined.

Lemma updates_do_not_accumulate_witness :
  updateMovingItems (mkPointF (real 25) (real 15)) 0
    (updateMovingItems (mkPointF (real 40) (real 40)) 0 movingTwo)
  = updateMovingItems (mkPointF (real 25) (real 15)) 0 movingTwo.
Proof.
  destruct (updates_do_not_accumulate (mkPointF (real 25) (real 15))
              (mkPointF (real 40) (real 40)) 0 0 movingTwo) as [Hmove _];
    [by_decision | exact Hmove].
Defined.

Lemma updateMovingItems_back_on_start_witness :
  exists it',
    items (scene (updateMovingItems (mStart movedTwo) 0 movedTwo)) !! 1%nat = Some it' /\
    MapObject.position (MapObjectItem.mapObject it') = mkPointF 0 0.
Proof.
  destruct (items (scene movedTwo) !! 1%nat) as [it|] eqn:Hit; [|discriminate].
  destruct (updateMovingItems_back_on_start 0 movedTwo) with
    (o := snapshotOf 1 firstSquare) (it := it) as (it' & Hit' & _ & Hpos);
    [reflexivity | by_decision | intros [x y]; reflexivity | by_decision | exact Hit
    | reflexivity |].
  exists it'. split; [exact Hit' | exact Hpos].
Defined.



Lemma updateRotatingItems_rigid_witness :
  let t := rotatingTwo BottomLeftAnchor in
  let t' := updateRotatingItems (mkPointF (real 15) (real 5)) ControlModifier t in
  exists it', items (scene t') !! 1%nat = Some it' /\
    MapObjectItem.rotation it' - 0
    = rotationAngle (mkPointF (real 15) (real 5)) ControlModifier t * real 180 / M_PI.
Proof.
  intros t t'.
  destruct (updateRotatingItems_rigid (mkPointF (real 15) (real 5)) ControlModifier t)
    with (o := snapshotOf 1 firstSquare) (it := firstSquare)
    as (it' & Hit' & Hrot & _);
    [by_decision | qc_eq | by_decision | reflexivity |].
  exists it'. split; [exact Hit' | exact Hrot].
Defined.

Lemma updateResizingItems_on_start_witness :
  let t := resizingTwo BottomRightAnchor in
  exists t', updateResizingItems (mStart t) 0 t = Some t' /\
    exists it', items (scene t') !! 1%nat = Some it' /\
      MapObject.size (MapObjectItem.mapObject it') = mkSizeF (real 10) (real 10).
Proof.
  intros t.
  destruct (updateResizingItems_on_start (mStart t) 0 t BottomRightAnchor)
    as (t' & Hrun & Hall);
    [reflexivity | vm_compute; lia | by_decision | reflexivity
    | intros _; qc_neq | intros _; qc_neq |].
  exists t'. split; [exact Hrun|].
  destruct (Hall (snapshotOf 1 firstSquare) firstSquare) as (it' & Hit' & _ & Hsize);
    [by_decision | reflexivity |].
  exists it'. split; [exact Hit' | exact Hsize].
Defined.


Lemma objectsRemoved_touches_only_remaining_witness :
  items (scene (objectsRemoved [2%nat] movedTwo)) !! 2%nat
  = items (scene movedTwo) !! 2%nat.
Proof.
  apply (objectsRemoved_touches_only_remaining [2%nat] movedTwo 2);
    [by_decision | left; by_decision].
Defined.


Lemma click_on_object_witness :
  mMode (mouseReleased (leftEvent (mkPointF (real 5) (real 5)) 0) pressedOnFirst) = Rotate.
Proof.
  destruct (click_on_object (leftEvent (mkPointF (real 5) (real 5)) 0) pressedOnFirst 1)
    as (_ & _ & Hsel & _);
    [reflexivity | reflexivity | reflexivity | reflexivity | reflexivity | reflexivity |].
  destruct Hsel as [_ Hmode]; [by_decision | exact Hmode].
Defined.

Lemma modifier_click_toggles_witness :
  1%nat ∉ selectedObjectItems
            (scene (mouseReleased (leftEvent (mkPointF (real 5) (real 5)) ControlModifier)
                                  pressedOnFirst)).
Proof.
  destruct (modifier_click_toggles (leftEvent (mkPointF (real 5) (real 5)) ControlModifier)
              pressedOnFirst 1) as (Hclicked & _);
    [reflexivity | reflexivity | reflexivity | reflexivity | reflexivity
    | vm_compute; discriminate |].
  intros Hin. apply Hclicked in Hin. apply Hin. by_decision.
Defined.

Lemma click_elsewhere_witness :
  selectedObjectItems
    (scene (mouseReleased (leftEvent (mkPointF (real 50) (real 50)) 0) pressedBeside)) = ∅.
Proof.
  destruct (click_elsewhere (leftEvent (mkPointF (real 50) (real 50)) 0) pressedBeside)
    as [Hcanvas _]; [reflexivity | reflexivity |].
  destruct Hcanvas as [Hsel _]; [reflexivity | reflexivity | reflexivity | exact Hsel].
Defined.

Lemma handle_drag_resizes_witness :
  let release := leftEvent (mkPointF 0 0) ShiftModifier in
  let press := leftEvent (mkPointF (real 30) (real 20)) 0 in
  exists t', mouseMoved (mkPointF (real 60) (real 60)) 0 (mkPoint 30 40)
               (mousePressed press (mouseReleased release (idleTool twoSquares)))
             = Some t' /\ mAction t' = Resizing.
Proof.
  intros release press.
  apply (handle_drag_resizes release press _ 0 (mkPoint 30 40) (idleTool twoSquares)
                             BottomRightAnchor);
    [reflexivity | reflexivity | vm_compute; reflexivity | reflexivity
    | vm_compute; discriminate].
Defined.

Lemma keyPressed_ignored_witness :
  keyPressed (mkKeyEvent Key_Left 0) movingTwo = (true, movingTwo).
Proof. apply keyPressed_ignored. left. vm_compute. discriminate. Defined.


End MoreExamples.
